(** * flask-cassandra: the [CassandraCluster] connection manager

  A shallow embedding of [flask_cassandra.py].  The manager keeps a
  handful of attributes and three dictionaries; every interesting effect
  is a call into the Cassandra driver or into the Flask application
  object.  The driver is modelled the way a mock of it behaves: every
  constructor call returns a new object, every call is recorded. *)

From stdpp Require Import gmap strings list fin_maps pretty.

Local Open Scope string_scope.
Local Open Scope list_scope.

(** ** Python values *)

Module Py.

(** The values that reach this module through the configuration and the
    method arguments. *)
Inductive PyVal : Type :=
| VNone
| VInt (z : Z)
| VStr (s : string)
| VList (l : list string).

#[global] Instance PyVal_eq_dec : EqDecision PyVal.
Proof. solve_decision. Defined.

#[global] Instance PyVal_countable : Countable PyVal.
Proof.
  refine (inj_countable'
    (fun v => match v with
              | VNone => inl (inl tt)
              | VInt z => inl (inr z)
              | VStr s => inr (inl s)
              | VList l => inr (inr l)
              end)
    (fun c => match c with
              | inl (inl _) => VNone
              | inl (inr z) => VInt z
              | inr (inl s) => VStr s
              | inr (inr l) => VList l
              end) _).
  intros []; reflexivity.
Defined.

(** [bool(v)] *)
Definition truthy (v : PyVal) : bool :=
  match v with
  | VNone => false
  | VInt z => negb (Z.eqb z 0)
  | VStr s => negb (String.eqb s EmptyString)
  | VList l => match l with [] => false | _ => true end
  end.

(** [a or b] and [a and b] *)
Definition py_or (a b : PyVal) : PyVal := if truthy a then a else b.
Definition py_and (a b : PyVal) : PyVal := if truthy a then b else a.

(** [hash(v)] succeeds on everything but a list. *)
Definition hashable (v : PyVal) : bool :=
  match v with VList _ => false | _ => true end.

Inductive exn : Type :=
| ValueError (msg : string)
| KeyError (key : PyVal)
| AttributeError (msg : string)
| TypeError (msg : string).

(** [d.setdefault(k, v)] on a dictionary. *)
Definition setdefault {V} (k : string) (v : V) (d : gmap string V) : gmap string V :=
  match d !! k with
  | Some _ => d
  | None => <[k := v]> d
  end.

End Py.
Import Py.

(** ** The Cassandra driver, as this module uses it *)

Module Driver.

(** [PlainTextAuthProvider(username, password)] *)
Record PlainTextAuthProvider : Type := {
  username : PyVal;
  password : PyVal
}.

(** A [Cluster] object: what it was constructed from, the attribute the
    manager assigns, and whether [shutdown()] was called on it. *)
Record Cluster : Type := {
  contact_points : PyVal;
  port : PyVal;
  auth_provider : option PlainTextAuthProvider;
  is_shutdown : bool
}.

(** A [Session] object.  [default_consistency_level] is [None] until
    somebody assigns the attribute (the driver then uses its own
    default). *)
Record Session : Type := {
  session_cluster : nat;
  session_keyspace : PyVal;
  default_consistency_level : option PyVal
}.

Record PreparedStatement : Type := {
  statement_session : nat;
  query_string : string
}.

(** What [Session.execute] is handed as its first argument: a prepared
    statement, or one of the manager's per-keyspace dictionaries. *)
Inductive ExecArg : Type :=
| ArgStatement (p : nat)
| ArgDict (d : gmap string nat).

(** The calls made into the driver, oldest first. *)
Inductive Call : Type :=
| CallCluster (contact_points port : PyVal)
| CallPlainTextAuthProvider (username password : PyVal)
| CallConnect (cluster : nat) (keyspace : PyVal)
| CallPrepare (session : nat) (query : string)
| CallExecute (session : nat) (query : ExecArg) (params : list PyVal)
| CallShutdown (cluster : nat).

(** Objects live in lists; an object is named by its index. *)
Record State : Type := {
  clusters : list Cluster;
  sessions : list Session;
  statements : list PreparedStatement;
  result_sets : nat;
  calls : list Call
}.

Definition empty : State :=
  {| clusters := []; sessions := []; statements := [];
     result_sets := 0; calls := [] |}.

Definition log (c : Call) (d : State) : State :=
  {| clusters := clusters d; sessions := sessions d;
     statements := statements d; result_sets := result_sets d;
     calls := calls d ++ [c] |}.

(** [Cluster(contact_points, port)] *)
Definition new_cluster (cp p : PyVal) (d : State) : nat * State :=
  (length (clusters d),
   log (CallCluster cp p)
     {| clusters := clusters d ++
          [ {| contact_points := cp; port := p;
               auth_provider := None; is_shutdown := false |} ];
        sessions := sessions d; statements := statements d;
        result_sets := result_sets d; calls := calls d |}).

(** [PlainTextAuthProvider(u, p)] *)
Definition new_auth_provider (u p : PyVal) (d : State)
  : PlainTextAuthProvider * State :=
  ({| username := u; password := p |}, log (CallPlainTextAuthProvider u p) d).

(** [cluster.auth_provider = a] *)
Definition set_auth_provider (c : nat) (a : PlainTextAuthProvider) (d : State) : State :=
  {| clusters :=
       alter (fun o => {| contact_points := contact_points o; port := port o;
                          auth_provider := Some a;
                          is_shutdown := is_shutdown o |}) c (clusters d);
     sessions := sessions d; statements := statements d;
     result_sets := result_sets d; calls := calls d |}.

(** [cluster.connect(keyspace=k)] *)
Definition connect (c : nat) (k : PyVal) (d : State) : nat * State :=
  (length (sessions d),
   log (CallConnect c k)
     {| clusters := clusters d;
        sessions := sessions d ++
          [ {| session_cluster := c; session_keyspace := k;
               default_consistency_level := None |} ];
        statements := statements d;
        result_sets := result_sets d; calls := calls d |}).

(** [session.default_consistency_level = level] *)
Definition set_default_consistency_level (s : nat) (level : PyVal) (d : State) : State :=
  {| clusters := clusters d;
     sessions :=
       alter (fun o => {| session_cluster := session_cluster o;
                          session_keyspace := session_keyspace o;
                          default_consistency_level := Some level |}) s (sessions d);
     statements := statements d;
     result_sets := result_sets d; calls := calls d |}.

(** [session.prepare(query)] *)
Definition prepare (s : nat) (q : string) (d : State) : nat * State :=
  (length (statements d),
   log (CallPrepare s q)
     {| clusters := clusters d; sessions := sessions d;
        statements := statements d ++
          [ {| statement_session := s; query_string := q |} ];
        result_sets := result_sets d; calls := calls d |}).

(** [session.execute(query, params)]: the result set is a new object. *)
Definition execute (s : nat) (q : ExecArg) (params : list PyVal) (d : State)
  : nat * State :=
  (result_sets d,
   log (CallExecute s q params)
     {| clusters := clusters d; sessions := sessions d;
        statements := statements d;
        result_sets := S (result_sets d); calls := calls d |}).

(** [cluster.shutdown()] *)
Definition shutdown (c : nat) (d : State) : State :=
  log (CallShutdown c)
    {| clusters :=
         alter (fun o => {| contact_points := contact_points o; port := port o;
                            auth_provider := auth_provider o;
                            is_shutdown := true |}) c (clusters d);
       sessions := sessions d; statements := statements d;
       result_sets := result_sets d; calls := calls d |}.

End Driver.

(** ** The Flask side: the application object and the context stack *)

Module Flask.

(** The only callback this module ever registers is the bound method
    [self.teardown]. *)
Inductive Callback : Type := SelfTeardown.

(** A record written by [app.logger.debug(template.format(arg))]. *)
Record LogRecord : Type := {
  template : string;
  argument : PyVal
}.

Record App : Type := {
  config : gmap string PyVal;
  has_teardown_appcontext : bool;
  teardown_appcontext_funcs : list Callback;
  teardown_request_funcs : list Callback;
  logger : list LogRecord
}.

(** A Flask application with the given configuration. *)
Definition new (cfg : gmap string PyVal) : App :=
  {| config := cfg; has_teardown_appcontext := true;
     teardown_appcontext_funcs := []; teardown_request_funcs := [];
     logger := [] |}.

Definition set_config (cfg : gmap string PyVal) (a : App) : App :=
  {| config := cfg; has_teardown_appcontext := has_teardown_appcontext a;
     teardown_appcontext_funcs := teardown_appcontext_funcs a;
     teardown_request_funcs := teardown_request_funcs a;
     logger := logger a |}.

(** [app.teardown_appcontext(f)] *)
Definition teardown_appcontext (f : Callback) (a : App) : App :=
  {| config := config a; has_teardown_appcontext := has_teardown_appcontext a;
     teardown_appcontext_funcs := teardown_appcontext_funcs a ++ [f];
     teardown_request_funcs := teardown_request_funcs a;
     logger := logger a |}.

(** [app.teardown_request(f)] *)
Definition teardown_request (f : Callback) (a : App) : App :=
  {| config := config a; has_teardown_appcontext := has_teardown_appcontext a;
     teardown_appcontext_funcs := teardown_appcontext_funcs a;
     teardown_request_funcs := teardown_request_funcs a ++ [f];
     logger := logger a |}.

(** [app.logger.debug(...)] *)
Definition debug (r : LogRecord) (a : App) : App :=
  {| config := config a; has_teardown_appcontext := has_teardown_appcontext a;
     teardown_appcontext_funcs := teardown_appcontext_funcs a;
     teardown_request_funcs := teardown_request_funcs a;
     logger := logger a ++ [r] |}.

(** The object on top of the context stack.  Its [cassandra_cluster]
    attribute exists or not ([hasattr], the outer option); when it does it
    holds what [self.cluster] held, a driver cluster or [None]. *)
Record Ctx : Type := {
  cassandra_cluster : option (option nat)
}.

End Flask.

(** ** The manager *)

Module CassandraCluster.

(** The instance attributes.  Python mangles [self.__session] to
    [_CassandraCluster__session]; the double underscore is kept here.
    [__sessions] (with an s) is a separate attribute: [__init__] does not
    create it, [init_app] does. *)
Record Self : Type := {
  app : option Flask.App;
  cluster : option nat;
  __primary_session : PyVal;
  __session : gmap PyVal nat;
  __sessions : option (gmap PyVal nat);
  __queries : gmap PyVal (gmap string nat);
  nodes : PyVal;
  port : PyVal;
  user : PyVal;
  password : PyVal;
  keyspace : PyVal;
  default_consistency_level : PyVal
}.

(** Everything a method can read or write: the manager itself, the driver's
    objects and the top of Flask's context stack ([None] outside a
    context). *)
Record World : Type := {
  self : Self;
  driver : Driver.State;
  stack_top : option Flask.Ctx
}.

(** *** Methods run in a state monad that can raise

    A Python exception leaves the assignments made before it in place, so
    the state is returned in both cases. *)
Inductive outcome (A : Type) : Type :=
| Return (a : A)
| Raise (e : exn).
Arguments Return {A} a.
Arguments Raise {A} e.

Definition M (A : Type) : Type := World -> outcome A * World.

Definition ret {A} (a : A) : M A := fun w => (Return a, w).

Definition raise {A} (e : exn) : M A := fun w => (Raise e, w).

Definition bind {A B} (m : M A) (f : A -> M B) : M B :=
  fun w => match m w with
           | (Return a, w') => f a w'
           | (Raise e, w') => (Raise e, w')
           end.

Definition get_self : M Self := fun w => (Return (self w), w).

Definition modify_self (f : Self -> Self) : M unit :=
  fun w => (Return tt,
            {| self := f (self w); driver := driver w; stack_top := stack_top w |}).

Definition get_top : M (option Flask.Ctx) := fun w => (Return (stack_top w), w).

Definition set_top (c : option Flask.Ctx) : M unit :=
  fun w => (Return tt, {| self := self w; driver := driver w; stack_top := c |}).

(** A driver call that returns an object. *)
Definition call {A} (f : Driver.State -> A * Driver.State) : M A :=
  fun w => let (a, d) := f (driver w) in
           (Return a, {| self := self w; driver := d; stack_top := stack_top w |}).

(** A driver call for its effect only. *)
Definition call_ (f : Driver.State -> Driver.State) : M unit :=
  fun w => (Return tt,
            {| self := self w; driver := f (driver w); stack_top := stack_top w |}).

Notation "x <- m ;; k" := (bind m (fun x => k))
  (at level 100, m at next level, right associativity).
Notation "m ;;; k" := (bind m (fun _ => k))
  (at level 100, right associativity).

(** *** Attribute assignment *)

Definition set_app (a : option Flask.App) (s : Self) : Self :=
  {| app := a; cluster := cluster s; __primary_session := __primary_session s;
     __session := __session s; __sessions := __sessions s;
     __queries := __queries s; nodes := nodes s; port := port s;
     user := user s; password := password s; keyspace := keyspace s;
     default_consistency_level := default_consistency_level s |}.

Definition set_cluster (c : option nat) (s : Self) : Self :=
  {| app := app s; cluster := c; __primary_session := __primary_session s;
     __session := __session s; __sessions := __sessions s;
     __queries := __queries s; nodes := nodes s; port := port s;
     user := user s; password := password s; keyspace := keyspace s;
     default_consistency_level := default_consistency_level s |}.

Definition set___session (m : gmap PyVal nat) (s : Self) : Self :=
  {| app := app s; cluster := cluster s; __primary_session := __primary_session s;
     __session := m; __sessions := __sessions s;
     __queries := __queries s; nodes := nodes s; port := port s;
     user := user s; password := password s; keyspace := keyspace s;
     default_consistency_level := default_consistency_level s |}.

Definition set___sessions (m : option (gmap PyVal nat)) (s : Self) : Self :=
  {| app := app s; cluster := cluster s; __primary_session := __primary_session s;
     __session := __session s; __sessions := m;
     __queries := __queries s; nodes := nodes s; port := port s;
     user := user s; password := password s; keyspace := keyspace s;
     default_consistency_level := default_consistency_level s |}.

Definition set___queries (q : gmap PyVal (gmap string nat)) (s : Self) : Self :=
  {| app := app s; cluster := cluster s; __primary_session := __primary_session s;
     __session := __session s; __sessions := __sessions s;
     __queries := q; nodes := nodes s; port := port s;
     user := user s; password := password s; keyspace := keyspace s;
     default_consistency_level := default_consistency_level s |}.

(** The six assignments [self.nodes = ...] to
    [self.default_consistency_level = ...] of [init_app]. *)
Definition set_settings (n p u pw k l : PyVal) (s : Self) : Self :=
  {| app := app s; cluster := cluster s; __primary_session := __primary_session s;
     __session := __session s; __sessions := __sessions s;
     __queries := __queries s; nodes := n; port := p;
     user := u; password := pw; keyspace := k;
     default_consistency_level := l |}.


(** *** Dictionary access *)

(** [k in d]; hashing a list raises. *)
Definition contains {V} (d : gmap PyVal V) (k : PyVal) : M bool :=
  if hashable k then ret (bool_decide (is_Some (d !! k)))
  else raise (TypeError "unhashable type: 'list'").

(** [d[k]] *)
Definition getitem {V} (d : gmap PyVal V) (k : PyVal) : M V :=
  match d !! k with
  | Some v => ret v
  | None => raise (KeyError k)
  end.

(** [app.config[k]] *)
Definition config_getitem (cfg : gmap string PyVal) (k : string) : M PyVal :=
  match cfg !! k with
  | Some v => ret v
  | None => raise (KeyError (VStr k))
  end.

(** *** [connect(self, keyspace=None, level=None)]

    The first block of [connect], [if self.cluster is None: ...]: reuse the
    [Cluster] object or create one, with an auth provider when
    [self.user and self.password] holds. *)
Definition ensure_cluster : M unit :=
  s <- get_self ;;
  match cluster s with
  | None =>
      c <- call (Driver.new_cluster (nodes s) (port s)) ;;
      modify_self (set_cluster (Some c)) ;;;
      if truthy (py_and (user s) (password s)) then
        a <- call (Driver.new_auth_provider (user s) (password s)) ;;
        call_ (Driver.set_auth_provider c a)
      else ret tt
  | Some _ => ret tt
  end.

(** The second block, [if keyspace not in self.__session: ...]: log, open
    a session on [self.cluster], cache it, set its level [if level]. *)
Definition open_session (keyspace level : PyVal) : M unit :=
  s <- get_self ;;
  match app s with
  | None => raise (AttributeError "'NoneType' object has no attribute 'logger'")
  | Some a =>
      modify_self (set_app (Some (Flask.debug
        {| Flask.template := "Connecting to Cassandra cluster at {}";
           Flask.argument := nodes s |} a))) ;;;
      match cluster s with
      | None => raise (AttributeError "'NoneType' object has no attribute 'connect'")
      | Some c =>
          r <- call (Driver.connect c keyspace) ;;
          modify_self (fun s => set___session (<[keyspace := r]> (__session s)) s) ;;;
          if truthy level then
            s <- get_self ;;
            r <- getitem (__session s) keyspace ;;
            call_ (Driver.set_default_consistency_level r level)
          else ret tt
      end
  end.

Definition connect (keyspace level : PyVal) : M (option nat) :=
  s <- get_self ;;
  let keyspace := py_or keyspace (CassandraCluster.keyspace s) in
  ensure_cluster ;;;
  if negb (truthy keyspace) then ret None
  else
    s <- get_self ;;
    cached <- contains (__session s) keyspace ;;
    (if negb cached then open_session keyspace level else ret tt) ;;;
    s <- get_self ;;
    r <- getitem (__session s) keyspace ;;
    ret (Some r).

(** *** The [session] property and [get_session(self, keyspace)] *)
Definition session : M (option nat) :=
  s <- get_self ;;
  connect (keyspace s) VNone.

Definition get_session (keyspace : PyVal) : M (option nat) :=
  connect keyspace VNone.

(** [ctx.cassandra_cluster.shutdown()] under [hasattr(ctx, 'cassandra_cluster')],
    as [init_app] and [teardown] both do.  [hasattr(None, ...)] is false. *)
Definition shutdown_context_cluster : M unit :=
  ctx <- get_top ;;
  match ctx with
  | Some {| Flask.cassandra_cluster := Some (Some c) |} => call_ (Driver.shutdown c)
  | Some {| Flask.cassandra_cluster := Some None |} =>
      raise (AttributeError "'NoneType' object has no attribute 'shutdown'")
  | _ => ret tt
  end.

(** *** [init_app(self, app)]

    The six [app.config.setdefault(...)] lines, in their order. *)
Definition set_defaults (cfg : gmap string PyVal) : gmap string PyVal :=
  setdefault "CASSANDRA_KEYSPACE" VNone
    (setdefault "CASSANDRA_PASSWORD" VNone
      (setdefault "CASSANDRA_USER" VNone
        (setdefault "CASSANDRA_PORT" (VInt 9042)
          (setdefault "CASSANDRA_NODES" (VList ["localhost"])
            (setdefault "CASSANDRA_CONSISTENCY_LEVEL" VNone cfg))))).

Definition init_app (a : Flask.App) : M unit :=
  let cfg := set_defaults (Flask.config a) in
  n <- config_getitem cfg "CASSANDRA_NODES" ;;
  let cfg :=
    match n with
    | VStr s => <["CASSANDRA_NODES" := VList [s]]> cfg
    | _ => cfg
    end in
  let a := Flask.set_config cfg a in
  modify_self (set_app (Some a)) ;;;
  n <- config_getitem cfg "CASSANDRA_NODES" ;;
  p <- config_getitem cfg "CASSANDRA_PORT" ;;
  u <- config_getitem cfg "CASSANDRA_USER" ;;
  pw <- config_getitem cfg "CASSANDRA_PASSWORD" ;;
  k <- config_getitem cfg "CASSANDRA_KEYSPACE" ;;
  l <- config_getitem cfg "CASSANDRA_CONSISTENCY_LEVEL" ;;
  modify_self (set_settings n p u pw k l) ;;;
  modify_self (set___sessions (Some ∅)) ;;;
  modify_self (set___queries ∅) ;;;
  modify_self (set_cluster None) ;;;
  shutdown_context_cluster ;;;
  if Flask.has_teardown_appcontext a then
    modify_self (set_app (Some (Flask.teardown_appcontext Flask.SelfTeardown a)))
  else
    modify_self (set_app (Some (Flask.teardown_request Flask.SelfTeardown a))).

(** *** [__init__(self, app=None)]

    Creating the manager: the attributes are assigned, then [init_app]
    runs if an application was given.  The driver state and the context
    stack are those of the process the object is created in. *)
Definition __init__ (a : option Flask.App) (d : Driver.State)
    (top : option Flask.Ctx) : outcome unit * World :=
  (match a with
   | Some a => init_app a
   | None => ret tt
   end)
    {| self :=
         {| app := a; cluster := None; __primary_session := VNone;
            __session := ∅; __sessions := None; __queries := ∅;
            nodes := VList []; port := VInt 9042; user := VNone;
            password := VNone; keyspace := VNone;
            default_consistency_level := VNone |};
       driver := d; stack_top := top |}.

(** *** [prepare_query(self, query_name, query, keyspace=None, force=False)] *)
Definition prepare_query (query_name query : string) (keyspace : PyVal) (force : bool)
  : M nat :=
  s <- get_self ;;
  let keyspace := py_or keyspace (CassandraCluster.keyspace s) in
  session <- connect keyspace VNone ;;
  s <- get_self ;;
  known <- contains (__queries s) keyspace ;;
  (if negb known then
     modify_self (fun s => set___queries (<[keyspace := ∅]> (__queries s)) s)
   else ret tt) ;;;
  s <- get_self ;;
  d <- getitem (__queries s) keyspace ;;
  (if force || negb (bool_decide (is_Some (d !! query_name))) then
     match session with
     | None => raise (AttributeError "'NoneType' object has no attribute 'prepare'")
     | Some r =>
         p <- call (Driver.prepare r query) ;;
         modify_self (fun s =>
           set___queries (<[keyspace := <[query_name := p]> d]> (__queries s)) s)
     end
   else ret tt) ;;;
  s <- get_self ;;
  d <- getitem (__queries s) keyspace ;;
  match d !! query_name with
  | Some p => ret p
  | None => raise (KeyError (VStr query_name))
  end.

(** The message of the [ValueError] of [execute_prepared]; character 34 is
    the double quote around the name. *)
Definition no_query_message (query_name : string) : string :=
  String.append "No query prepared with name "
    (String (Ascii.ascii_of_nat 34)
       (String.append query_name
          (String (Ascii.ascii_of_nat 34) " and query is not specified."))).

(** *** [execute_prepared(self, query_name, keyspace=None, query=None, params=[])] *)
Definition execute_prepared (query_name : string) (keyspace : PyVal)
    (query : option string) (params : list PyVal) : M nat :=
  s <- get_self ;;
  let keyspace := py_or keyspace (CassandraCluster.keyspace s) in
  session <- connect keyspace VNone ;;
  s <- get_self ;;
  known <- contains (__queries s) keyspace ;;
  (if negb known then
     modify_self (fun s => set___queries (<[keyspace := ∅]> (__queries s)) s)
   else ret tt) ;;;
  s <- get_self ;;
  d <- getitem (__queries s) keyspace ;;
  (if negb (bool_decide (is_Some (d !! query_name))) then
     match query with
     | None => raise (ValueError (no_query_message query_name))
     | Some q => _ <- prepare_query query_name q keyspace false ;; ret tt
     end
   else ret tt) ;;;
  match session with
  | None => raise (AttributeError "'NoneType' object has no attribute 'execute'")
  | Some r =>
      s <- get_self ;;
      d <- getitem (__queries s) (VStr query_name) ;;
      call (Driver.execute r (Driver.ArgDict d) params)
  end.

(** *** [teardown(self, exception)] *)
Definition teardown (exception : option exn) : M unit :=
  shutdown_context_cluster.

(** *** The [connection] property *)
Definition connection : M (option nat) :=
  ctx <- get_top ;;
  match ctx with
  | None => ret None
  | Some c =>
      (match Flask.cassandra_cluster c with
       | None =>
           _ <- connect VNone VNone ;;
           s <- get_self ;;
           set_top (Some {| Flask.cassandra_cluster := Some (cluster s) |})
       | Some _ => ret tt
       end) ;;;
      ctx <- get_top ;;
      match ctx with
      | Some {| Flask.cassandra_cluster := Some v |} => ret v
      | _ => raise (AttributeError "cassandra_cluster")
      end
  end.

(** *** [__repr__(self)]

    The message of Python 3 for [str + v] when [v] is no [str]; character
    34 is the double quote around the type's name. *)
Definition concat_message (type_name : string) : string :=
  String.append "can only concatenate str (not "
    (String (Ascii.ascii_of_nat 34)
       (String.append type_name
          (String (Ascii.ascii_of_nat 34) ") to str"))).

(** [type(v).__name__] *)
Definition type_name (v : PyVal) : string :=
  match v with
  | VNone => "NoneType"
  | VInt _ => "int"
  | VStr _ => "str"
  | VList _ => "list"
  end.

(** [s + v] for a [str] [s] *)
Definition add_str (s : string) (v : PyVal) : M string :=
  match v with
  | VStr t => ret (String.append s t)
  | _ => raise (TypeError (concat_message (type_name v)))
  end.

(** [sep.join(v)] on the values of [PyVal]: a list, which in [PyVal]
    holds strings only, is joined; a string is joined character by
    character; [None] and an integer are not iterable.  A tuple, another
    iterable, and a list with an element that is no [str] (on which
    [join] raises [TypeError]) are no values of [PyVal]: this definition
    says nothing about them. *)
Definition join (sep : string) (v : PyVal) : M string :=
  match v with
  | VList l => ret (String.concat sep l)
  | VStr s =>
      ret (String.concat sep
             (List.map (fun c => String c EmptyString) (String.list_ascii_of_string s)))
  | _ => raise (TypeError "can only join an iterable")
  end.

(** [len(v)] *)
Definition len (v : PyVal) : M nat :=
  match v with
  | VList l => ret (length l)
  | VStr s => ret (String.length s)
  | _ => raise (TypeError (String.append "object of type '"
                             (String.append (type_name v) "' has no len()")))
  end.

Section Repr.

(** [str] of a list is Python's own rendering of it (quotes and escapes
    of the elements' [repr]); it is taken as given. *)
Variable str_of_list : list string -> string.

(** [str(v)] *)
Definition py_str (v : PyVal) : string :=
  match v with
  | VNone => "None"
  | VInt z => pretty z
  | VStr s => s
  | VList l => str_of_list l
  end.

(** [auth_data] is built as the source builds it, and like there it is
    not used. *)
Definition __repr__ : M string :=
  s <- get_self ;;
  let auth_data :=
    if truthy (py_or (user s) (password s))
    then py_or (user s) (VStr EmptyString)
         :: (if truthy (password s) then [password s] else [])
    else [] in
  let conn_string := "cql://" in
  conn_string <- (if truthy (user s) then add_str conn_string (user s)
                  else ret conn_string) ;;
  conn_string <- (if truthy (password s)
                  then t <- add_str ":" (password s) ;;
                       ret (String.append conn_string t)
                  else ret conn_string) ;;
  hosts <- join ", " (nodes s) ;;
  n <- len (nodes s) ;;
  let hosts :=
    if decide (n = 1) then hosts
    else String.append "[" (String.append hosts "]") in
  let conn_string := String.append conn_string hosts in
  let conn_string :=
    if truthy (port s) then String.append conn_string (py_str (port s))
    else conn_string in
  conn_string <- (if truthy (keyspace s)
                  then t <- add_str "/" (keyspace s) ;;
                       ret (String.append conn_string t)
                  else ret conn_string) ;;
  ret (String.append "<CassandraCluster " (String.append conn_string ">")).

End Repr.

End CassandraCluster.

Import CassandraCluster.

(** ** What the statements below talk about *)

(** The keyspace a call works on, [keyspace or self.keyspace]. *)
Definition effective_keyspace (keyspace : PyVal) (w : World) : PyVal :=
  py_or keyspace (CassandraCluster.keyspace (self w)).

(** The manager went through [init_app]: it has an application. *)
Definition bound (w : World) : Prop := is_Some (app (self w)).

(** The prepared statement stored as [self.__queries[k][name]], if any. *)
Definition prepared (w : World) (k : PyVal) (name : string) : option nat :=
  __queries (self w) !! k ≫= (.!! name).

(** [app.config[k]] once [setdefault(k, dflt)] has run. *)
Definition config_value (k : string) (dflt : PyVal) (a : Flask.App) : PyVal :=
  default dflt (Flask.config a !! k).

(** The calls a client can make on a manager, and Flask entering or leaving
    a context in between. *)
Inductive Op : Type :=
| OpInitApp (a : Flask.App)
| OpSession
| OpGetSession (keyspace : PyVal)
| OpPrepareQuery (query_name query : string) (keyspace : PyVal) (force : bool)
| OpExecutePrepared (query_name : string) (keyspace : PyVal)
    (query : option string) (params : list PyVal)
| OpConnect (keyspace level : PyVal)
| OpTeardown (exception : option exn)
| OpConnection
| OpContext (top : option Flask.Ctx).

(** The state after a call, whether it returned or raised. *)
Definition exec (op : Op) (w : World) : World :=
  match op with
  | OpInitApp a => snd (init_app a w)
  | OpSession => snd (session w)
  | OpGetSession k => snd (get_session k w)
  | OpPrepareQuery n q k f => snd (prepare_query n q k f w)
  | OpExecutePrepared n k q ps => snd (execute_prepared n k q ps w)
  | OpConnect k l => snd (connect k l w)
  | OpTeardown e => snd (teardown e w)
  | OpConnection => snd (connection w)
  | OpContext top => snd (set_top top w)
  end.

(** The states a manager can be in: created by [__init__], then used. *)
Inductive reachable : World -> Prop :=
| reachable_init a d top : reachable (snd (__init__ a d top))
| reachable_exec op w : reachable w -> reachable (exec op w).

(** Every cached session is a session object of the driver, opened on the
    keyspace it is cached under. *)
Definition consistent_with (cache : gmap PyVal nat) (objects : list Driver.Session)
  : Prop :=
  forall k r, cache !! k = Some r ->
    exists o, objects !! r = Some o /\ Driver.session_keyspace o = k.

Definition sessions_consistent (w : World) : Prop :=
  consistent_with (__session (self w)) (Driver.sessions (driver w)).

(** A step that keeps a property of the state, returning or raising. *)
Definition preserves {A} (P : World -> Prop) (m : M A) : Prop :=
  forall w, P w -> P (snd (m w)).

(** *** Worked scenarios *)

(** NODES=["h1"], PORT=1234, USER="u", PASSWORD="p". *)
Definition scenario_config : gmap string PyVal :=
  <["CASSANDRA_NODES" := VList ["h1"]]>
    (<["CASSANDRA_PORT" := VInt 1234]>
      (<["CASSANDRA_USER" := VStr "u"]>
        (<["CASSANDRA_PASSWORD" := VStr "p"]> ∅))).

(** [CassandraCluster(app)] on that configuration, outside any context. *)
Definition scenario_world : World :=
  snd (__init__ (Some (Flask.new scenario_config)) Driver.empty None).

(** A configuration with a default keyspace and a scalar node address. *)
Definition keyspace_config : gmap string PyVal :=
  <["CASSANDRA_KEYSPACE" := VStr "ks"]>
    (<["CASSANDRA_NODES" := VStr "cassandra.example.com"]> ∅).

Definition keyspace_world : World :=
  snd (__init__ (Some (Flask.new keyspace_config)) Driver.empty None).

(** [CassandraCluster()], never bound. *)
Definition unbound_world : World :=
  snd (__init__ None Driver.empty None).

(** [connect('ks')] on the manager with the default keyspace, then
    [init_app] again, with the same or with the other configuration. *)
Definition connected_world : World :=
  exec (OpConnect (VStr "ks") VNone) keyspace_world.

Definition rebound_world : World :=
  exec (OpInitApp (Flask.new keyspace_config)) connected_world.

(** [prepare_query('q', 'SELECT now() FROM system.local')] on the manager
    with the default keyspace. *)
Definition prepared_world : World :=
  exec (OpPrepareQuery "q" "SELECT now() FROM system.local" VNone false)
    keyspace_world.

(** The manager with the default keyspace, inside a context that has no
    [cassandra_cluster] attribute yet. *)
Definition context_world : World :=
  exec (OpContext (Some {| Flask.cassandra_cluster := None |})) keyspace_world.

(** The manager inside a context after the [connection] property was
    read: the context holds the manager's cluster. *)
Definition served_world : World := exec OpConnection context_world.

(** A configuration with a default keyspace and a default consistency
    level (4 is the driver's [ConsistencyLevel.QUORUM]). *)
Definition level_config : gmap string PyVal :=
  <["CASSANDRA_CONSISTENCY_LEVEL" := VInt 4]> keyspace_config.

(** *** Operations that keep the binding *)

(** [init_app] is the one operation that re-binds the manager. *)
Definition rebinds (op : Op) : bool :=
  match op with
  | OpInitApp _ => true
  | _ => false
  end.

(** Two states with the same manager attributes, [app] and [__queries]
    apart, the same session objects and as many cluster objects. *)
Definition same_handles (w w' : World) : Prop :=
  (forall q a, set___queries q (set_app a (self w'))
               = set___queries q (set_app a (self w)))
  /\ length (Driver.clusters (driver w')) = length (Driver.clusters (driver w))
  /\ Driver.sessions (driver w') = Driver.sessions (driver w).

(** The state after a sequence of calls, each run on the state the one
    before left, whether it returned or raised. *)
Definition run_ops (ops : list Op) (w : World) : World :=
  foldl (fun w op => exec op w) w ops.

(** [self.cluster], once assigned, names a [Cluster] object that the
    driver has constructed. *)
Definition cluster_built (w : World) : Prop :=
  forall c, cluster (self w) = Some c ->
            is_Some (Driver.clusters (driver w) !! c).

(** *** What [__repr__] needs of a setting *)

(** A setting [__repr__] can print: one it skips (false in Python) or a
    [str]. *)
Definition printable (v : PyVal) : bool :=
  negb (truthy v) || match v with VStr _ => true | _ => false end.

(** A value of [PyVal] that [join] accepts: a [str] or a list, which
    in [PyVal] is a list of [str]. *)
Definition iterable (v : PyVal) : bool :=
  match v with VList _ | VStr _ => true | _ => false end.

(** [p] is a substring of [s]. *)
Definition occurs_in (p s : string) : Prop :=
  exists before after, s = String.append before (String.append p after).

(** *** Prepared statements and the sessions they belong to *)

(** Every stored statement is a statement object of the driver, prepared
    on the session cached for the keyspace it is stored under. *)
Definition prepared_on (cache : gmap PyVal nat) (queries : gmap PyVal (gmap string nat))
    (objects : list Driver.PreparedStatement) : Prop :=
  forall k n p, queries !! k ≫= (.!! n) = Some p ->
    exists st r, objects !! p = Some st
                 /\ cache !! k = Some r
                 /\ Driver.statement_session st = r.

Definition statements_consistent (w : World) : Prop :=
  prepared_on (__session (self w)) (__queries (self w))
    (Driver.statements (driver w)).

(** ** Python truth *)

Lemma truthy_py_and a b : truthy (py_and a b) = truthy a && truthy b.
Proof. unfold py_and. destruct (truthy a) eqn:E; simpl; auto. Qed.

Lemma truthy_py_or a b : truthy (py_or a b) = truthy a || truthy b.
Proof. unfold py_or. destruct (truthy a) eqn:E; simpl; auto. Qed.

Lemma py_or_truthy a b : truthy a = true -> py_or a b = a.
Proof. unfold py_or. intros ->. reflexivity. Qed.

Lemma truthy_VStr s : s <> EmptyString -> truthy (VStr s) = true.
Proof.
  intros H. simpl. destruct (String.eqb s EmptyString) eqn:E; [|reflexivity].
  apply String.eqb_eq in E. contradiction.
Qed.

Lemma setdefault_lookup {V} (k k' : string) (v : V) (d : gmap string V) :
  setdefault k v d !! k' =
  if decide (k = k') then Some (default v (d !! k)) else d !! k'.
Proof.
  unfold setdefault. destruct (d !! k) eqn:E.
  - case_decide; subst; simpl; congruence.
  - rewrite lookup_insert. case_decide; subst; simpl; auto.
Qed.

Lemma py_or_idem a b : py_or (py_or a b) b = py_or a b.
Proof.
  unfold py_or. destruct (truthy a) eqn:Ea; [rewrite Ea; reflexivity|].
  destruct (truthy b); reflexivity.
Qed.

(** ** Objects appended to the driver's lists *)

Lemma alter_snoc {A} (f : A -> A) (l : list A) (x : A) :
  alter f (length l) (l ++ [x]) = l ++ [f x].
Proof. rewrite alter_app_r_alt by lia. rewrite Nat.sub_diag. reflexivity. Qed.

Lemma lookup_snoc_length {A} (l : list A) (x : A) :
  (l ++ [x]) !! length l = Some x.
Proof. rewrite lookup_app_r by lia. rewrite Nat.sub_diag. reflexivity. Qed.

(** ** Stepping through a method *)

Ltac bool_norm :=
  repeat match goal with
    | |- context [truthy VNone] => change (truthy VNone) with false
    | |- context [negb true] => change (negb true) with false
    | |- context [negb false] => change (negb false) with true
    | |- context [true && ?b] => change (true && b) with b
    | |- context [false && ?b] => change (false && b) with false
    | |- context [true || ?b] => change (true || b) with true
    | |- context [false || ?b] => change (false || b) with b
    end.

(** Rewrite with what is known about the tests a method makes. *)
Ltac facts :=
  repeat match goal with
    | H : truthy ?x = _ |- context [truthy ?x] => rewrite H
    | H : hashable ?x = _ |- context [hashable ?x] => rewrite H
    | H : @lookup _ _ _ _ ?k ?m = _ |- context [@lookup _ _ _ _ ?k ?m] => rewrite H
    | |- context [<[?k := _]> _ !! ?k] => rewrite lookup_insert_eq
    | |- context [<[_ := _]> _ !! _] =>
        rewrite lookup_insert_ne by first [discriminate | assumption | congruence]
    | |- context [py_or (py_or _ _) _] => rewrite py_or_idem
    | |- context [@lookup _ _ (gmap _ _) _ _ ∅] => rewrite lookup_empty
    | |- context [bool_decide (is_Some (Some _))] =>
        rewrite bool_decide_eq_true_2 by eauto
    | |- context [bool_decide (is_Some None)] =>
        rewrite bool_decide_eq_false_2 by (intros [? ?]; discriminate)
    end.

Ltac project :=
  cbn [ self driver stack_top
        app cluster __primary_session __session __sessions __queries
        nodes port user password keyspace default_consistency_level
        Driver.clusters Driver.sessions Driver.statements Driver.result_sets
        Driver.calls Flask.cassandra_cluster Flask.config
        Flask.has_teardown_appcontext fst snd ].

Ltac project_all :=
  cbn [ self driver stack_top
        app cluster __primary_session __session __sessions __queries
        nodes port user password keyspace default_consistency_level
        Driver.clusters Driver.sessions Driver.statements Driver.result_sets
        Driver.calls Flask.cassandra_cluster Flask.config
        Flask.has_teardown_appcontext fst snd ] in *.

(** Unfold the methods, [connect] included. *)
Ltac unfold_methods :=
  cbv [ connect ensure_cluster open_session session get_session
        shutdown_context_cluster teardown connection
        prepare_query execute_prepared init_app __init__
        bind ret raise get_self modify_self get_top set_top call call_
        contains getitem config_getitem
        set_app set_cluster set___session set___sessions set___queries
        set_settings
        Driver.new_cluster Driver.new_auth_provider Driver.set_auth_provider
        Driver.connect Driver.set_default_consistency_level Driver.prepare
        Driver.execute Driver.shutdown Driver.log Flask.set_config ];
  project.

(** Unfold the methods but leave their calls to [connect] standing. *)
Ltac unfold_callers :=
  cbv [ session get_session
        shutdown_context_cluster teardown connection
        prepare_query execute_prepared init_app __init__
        bind ret raise get_self modify_self get_top set_top call call_
        contains getitem config_getitem
        set_app set_cluster set___session set___sessions set___queries
        set_settings
        Driver.prepare Driver.execute Driver.shutdown Driver.log
        Flask.set_config ];
  project.

Ltac step := repeat (progress (facts; bool_norm; unfold_methods)).

Ltac open_world w :=
  let a := fresh "a" in let cl := fresh "cl" in let ps := fresh "ps" in
  let se := fresh "se" in let ss := fresh "ss" in let q := fresh "q" in
  let n := fresh "n" in let p := fresh "p" in let u := fresh "u" in
  let pw := fresh "pw" in let dk := fresh "dk" in let l := fresh "l" in
  let d := fresh "d" in let top := fresh "top" in
  destruct w as [[a cl ps se ss q n p u pw dk l] d top].

(** ** [connect] *)

(** With a [Cluster] object at hand the first block does nothing. *)
Lemma ensure_cluster_some w c :
  cluster (self w) = Some c -> ensure_cluster w = (Return tt, w).
Proof. open_world w. simpl. intros ->. reflexivity. Qed.

(** On a cached keyspace, with a [Cluster] object at hand, [connect]
    returns the cached session and changes nothing at all, whatever
    [level]. *)
Lemma connect_hit w ks level r c :
  truthy (effective_keyspace ks w) = true ->
  hashable (effective_keyspace ks w) = true ->
  __session (self w) !! effective_keyspace ks w = Some r ->
  cluster (self w) = Some c ->
  connect ks level w = (Return (Some r), w).
Proof.
  unfold effective_keyspace. open_world w. simpl.
  intros Ht Hh Hr ->. do 4 step. reflexivity.
Qed.

(** Case analysis on whatever test the method is stuck on. *)
Ltac branch :=
  match goal with
  | |- context [bool_decide (is_Some ?x)] => destruct x eqn:?
  | |- context [(if negb ?b then _ else _) (Build_World _ _ _)] => destruct b eqn:?
  | |- context [(if ?b then _ else _) (Build_World _ _ _)] => destruct b eqn:?
  | |- context [(match ?x with Some _ => _ | None => _ end) (Build_World _ _ _)] =>
      destruct x eqn:?
  | |- context [let (_, _) := (if negb ?b then _ else _) in _] => destruct b eqn:?
  | |- context [let (_, _) := (if ?b then _ else _) in _] => destruct b eqn:?
  | |- context [let (_, _) := (match ?x with Some _ => _ | None => _ end) in _] =>
      destruct x eqn:?
  end.

Ltac run := repeat (step; try branch).

(** C4: when [connect] has to construct the [Cluster] object, the driver's
    constructor receives exactly [self.nodes] and [self.port]; a
    [PlainTextAuthProvider] is constructed from [(self.user,
    self.password)] and attached if and only if both are set, that is true
    in Python's sense (neither [None] nor empty); in particular none is
    attached when either is [None].  Nothing else is constructed but, at
    most, one session on the new cluster. *)
Theorem connect_constructs_cluster w ks level :
  cluster (self w) = None ->
  let c := length (Driver.clusters (driver w)) in
  let both := truthy (user (self w)) && truthy (password (self w)) in
  let w' := snd (connect ks level w) in
  cluster (self w') = Some c
  /\ (exists rest,
        Driver.calls (driver w') =
          Driver.calls (driver w)
          ++ Driver.CallCluster (nodes (self w)) (port (self w))
             :: (if both
                 then [Driver.CallPlainTextAuthProvider
                         (user (self w)) (password (self w))]
                 else [])
          ++ rest
        /\ (rest = [] \/ exists k, rest = [Driver.CallConnect c k]))
  /\ Driver.clusters (driver w') =
       Driver.clusters (driver w)
       ++ [ {| Driver.contact_points := nodes (self w);
               Driver.port := port (self w);
               Driver.auth_provider :=
                 if both
                 then Some {| Driver.username := user (self w);
                              Driver.password := password (self w) |}
                 else None;
               Driver.is_shutdown := false |} ]
  /\ (user (self w) = VNone \/ password (self w) = VNone -> both = false).
Proof.
  intros Hcl. cbv zeta.
  destruct (connect ks level w) as [o w'] eqn:He. cbn [snd]. revert He.
  open_world w. destruct d as [cs ses sts rs cls]. project_all. subst cl.
  rewrite <- !truthy_py_and. destruct (truthy (py_and u pw)) eqn:Hb.
  all: run; intros [= <- <-]; project.
  all: rewrite ?alter_snoc, <- ?app_assoc; cbn [app].
  all: repeat split;
    try (eexists; split; [reflexivity | eauto]);
    intros [-> | ->]; cbn in Hb; rewrite ?truthy_py_and in Hb;
    cbn in Hb; rewrite ?andb_false_r in Hb; congruence.
Qed.

(** ** [init_app] *)

(** After the [setdefault] lines every setting is present: the configured
    value, or the default. *)
Lemma set_defaults_lookup cfg :
  set_defaults cfg !! "CASSANDRA_NODES"
    = Some (default (VList ["localhost"]) (cfg !! "CASSANDRA_NODES"))
  /\ set_defaults cfg !! "CASSANDRA_PORT"
    = Some (default (VInt 9042) (cfg !! "CASSANDRA_PORT"))
  /\ set_defaults cfg !! "CASSANDRA_USER"
    = Some (default VNone (cfg !! "CASSANDRA_USER"))
  /\ set_defaults cfg !! "CASSANDRA_PASSWORD"
    = Some (default VNone (cfg !! "CASSANDRA_PASSWORD"))
  /\ set_defaults cfg !! "CASSANDRA_KEYSPACE"
    = Some (default VNone (cfg !! "CASSANDRA_KEYSPACE"))
  /\ set_defaults cfg !! "CASSANDRA_CONSISTENCY_LEVEL"
    = Some (default VNone (cfg !! "CASSANDRA_CONSISTENCY_LEVEL")).
Proof.
  unfold set_defaults.
  repeat split;
    repeat (rewrite setdefault_lookup;
            first [ rewrite decide_False by discriminate
                  | rewrite decide_True by reflexivity ]);
    reflexivity.
Qed.

Ltac open_top top :=
  let c := fresh "c" in destruct top as [[[[c|]|]]|].

(** Lookups in the configuration after the [isinstance] line. *)
Lemma normalized_lookup (cfg : gmap string PyVal) v k :
  k <> "CASSANDRA_NODES" ->
  match v with
  | VStr s => <["CASSANDRA_NODES" := VList [s]]> cfg
  | _ => cfg
  end !! k = cfg !! k.
Proof. intros Hk. destruct v; try reflexivity. apply lookup_insert_ne. congruence. Qed.

Lemma normalized_lookup_nodes (cfg : gmap string PyVal) v :
  cfg !! "CASSANDRA_NODES" = Some v ->
  match v with
  | VStr s => <["CASSANDRA_NODES" := VList [s]]> cfg
  | _ => cfg
  end !! "CASSANDRA_NODES"
  = Some match v with VStr s => VList [s] | _ => v end.
Proof. intros Hv. destruct v; try exact Hv. apply lookup_insert_eq. Qed.

(** Run [init_app] up to its last setting read. *)
Ltac settings cfg :=
  let Hn := fresh "Hn" in let Hp := fresh "Hp" in let Hu := fresh "Hu" in
  let Hpw := fresh "Hpw" in let Hk := fresh "Hk" in let Hl := fresh "Hl" in
  destruct (set_defaults_lookup cfg) as (Hn & Hp & Hu & Hpw & Hk & Hl);
  unfold_methods;
  rewrite Hn; unfold_methods;
  rewrite (normalized_lookup_nodes _ _ Hn); unfold_methods;
  rewrite !normalized_lookup by discriminate;
  rewrite Hp, Hu, Hpw, Hk, Hl; unfold_methods.


(** What [init_app] leaves in the manager, whether or not shutting down
    the context's old cluster raised: the settings are those of the
    configuration, [__queries] is empty, [cluster] is [None], the new
    attribute [__sessions] is an empty dictionary -- and [__session], the
    dictionary [connect] uses, is what it was. *)
Lemma init_app_self a w :
  let s' := self (snd (init_app a w)) in
  nodes s' = match config_value "CASSANDRA_NODES" (VList ["localhost"]) a with
             | VStr x => VList [x]
             | v => v
             end
  /\ port s' = config_value "CASSANDRA_PORT" (VInt 9042) a
  /\ user s' = config_value "CASSANDRA_USER" VNone a
  /\ password s' = config_value "CASSANDRA_PASSWORD" VNone a
  /\ keyspace s' = config_value "CASSANDRA_KEYSPACE" VNone a
  /\ default_consistency_level s'
       = config_value "CASSANDRA_CONSISTENCY_LEVEL" VNone a
  /\ cluster s' = None
  /\ __queries s' = ∅
  /\ __sessions s' = Some ∅
  /\ __session s' = __session (self w)
  /\ is_Some (app s').
Proof.
  unfold config_value. cbv zeta.
  destruct (init_app a w) as [o w'] eqn:He. cbn [snd]. revert He.
  open_world w. destruct a as [cfg hta f1 f2 lg].
  cbn [Flask.config]. settings cfg.
  open_top top; destruct hta; unfold_methods; intros [= <- <-]; project;
    repeat split; eauto; destruct (default _ _); reflexivity.
Qed.

(** [init_app] touches the driver only to shut down the cluster of the
    active context. *)
Lemma init_app_driver a w :
  let w' := snd (init_app a w) in
  Driver.sessions (driver w') = Driver.sessions (driver w)
  /\ Driver.statements (driver w') = Driver.statements (driver w)
  /\ length (Driver.clusters (driver w')) = length (Driver.clusters (driver w))
  /\ stack_top w' = stack_top w.
Proof.
  cbv zeta. destruct (init_app a w) as [o w'] eqn:He. cbn [snd]. revert He.
  open_world w. destruct a as [cfg hta f1 f2 lg]. settings cfg.
  open_top top; destruct hta; unfold_methods; intros [= <- <-]; project;
    rewrite ?length_alter; repeat split; eauto.
Qed.

(** [init_app] returns unless the context's [cassandra_cluster] attribute
    holds [None]. *)
Lemma init_app_returns a w :
  (forall c, stack_top w = Some c -> Flask.cassandra_cluster c <> Some None) ->
  fst (init_app a w) = Return tt.
Proof.
  open_world w. destruct a as [cfg hta f1 f2 lg]. cbn [stack_top].
  intros Htop. settings cfg.
  open_top top; destruct hta; unfold_methods; try reflexivity;
    exfalso; eapply Htop; reflexivity.
Qed.

(** C7: a scalar string under [CASSANDRA_NODES] becomes a one-element list,
    in the manager's [nodes] and in [app.config]; a list is taken as it
    is. *)
Theorem init_app_normalizes_nodes a w v :
  Flask.config a !! "CASSANDRA_NODES" = Some v ->
  let w' := snd (init_app a w) in
  (forall s, v = VStr s ->
     nodes (self w') = VList [s]
     /\ exists a', app (self w') = Some a'
                   /\ Flask.config a' !! "CASSANDRA_NODES" = Some (VList [s]))
  /\ (forall l, v = VList l ->
     nodes (self w') = VList l
     /\ exists a', app (self w') = Some a'
                   /\ Flask.config a' !! "CASSANDRA_NODES" = Some (VList l)).
Proof.
  intros Hv. cbv zeta.
  destruct (init_app a w) as [o w'] eqn:He. cbn [snd]. revert He.
  open_world w. destruct a as [cfg hta f1 f2 lg].
  cbn [Flask.config] in Hv. settings cfg.
  assert (Hn' := Hn). rewrite Hv in Hn'. cbn [default from_option id] in Hn'.
  rewrite Hv. cbn [default from_option id].
  open_top top; destruct hta; unfold_methods; intros [= <- <-]; project.
  all: split; intros x ->;
    (split; [reflexivity | eexists; split; [reflexivity|]]);
    cbn [Flask.teardown_appcontext Flask.teardown_request Flask.config];
    rewrite ?lookup_insert_eq; auto.
Qed.

(** Without an effective keyspace [connect] returns [None]; it has made
    sure of the [Cluster] object and opened no session. *)
Lemma connect_no_keyspace w ks level :
  truthy (effective_keyspace ks w) = false ->
  exists w', connect ks level w = (Return None, w')
             /\ is_Some (cluster (self w'))
             /\ __session (self w') = __session (self w)
             /\ Driver.sessions (driver w') = Driver.sessions (driver w).
Proof.
  unfold effective_keyspace. open_world w. cbn [self keyspace]. intros Hk.
  destruct cl; run; eexists; (split; [reflexivity|]); cbn; eauto.
Qed.

(** On a cached keyspace [connect] returns the cached session, opens no
    session and assigns no level.  With a [Cluster] object at hand nothing
    changes; without one, the first block constructs it all the same. *)
Lemma connect_cached w ks level r :
  truthy (effective_keyspace ks w) = true ->
  hashable (effective_keyspace ks w) = true ->
  __session (self w) !! effective_keyspace ks w = Some r ->
  exists w', connect ks level w = (Return (Some r), w')
    /\ __session (self w') = __session (self w)
    /\ __queries (self w') = __queries (self w)
    /\ Driver.sessions (driver w') = Driver.sessions (driver w)
    /\ match cluster (self w) with
       | Some c => w' = w
       | None =>
           cluster (self w') = Some (length (Driver.clusters (driver w)))
           /\ exists more,
                Driver.calls (driver w') =
                  Driver.calls (driver w)
                  ++ Driver.CallCluster (nodes (self w)) (port (self w)) :: more
       end.
Proof.
  unfold effective_keyspace. open_world w. cbn [self keyspace __session].
  intros Ht Hh Hr.
  destruct cl; run; eexists; (split; [reflexivity|]); cbn;
    rewrite <- ?app_assoc; eauto 10.
Qed.

(** On a keyspace that is not cached, a bound manager opens a session on
    its [Cluster] object for exactly that keyspace, caches it under the
    keyspace and returns it.  The level is assigned under [if level]: a
    level that is false in Python's sense, such as 0, is not. *)
Lemma connect_miss w ks level :
  bound w ->
  truthy (effective_keyspace ks w) = true ->
  hashable (effective_keyspace ks w) = true ->
  __session (self w) !! effective_keyspace ks w = None ->
  let k := effective_keyspace ks w in
  let r := length (Driver.sessions (driver w)) in
  exists c w', connect ks level w = (Return (Some r), w')
    /\ cluster (self w') = Some c
    /\ (cluster (self w) = Some c
        \/ cluster (self w) = None /\ c = length (Driver.clusters (driver w)))
    /\ __session (self w') = <[k := r]> (__session (self w))
    /\ Driver.sessions (driver w') =
         Driver.sessions (driver w)
         ++ [ {| Driver.session_cluster := c;
                 Driver.session_keyspace := k;
                 Driver.default_consistency_level :=
                   if truthy level then Some level else None |} ]
    /\ (exists before, Driver.calls (driver w') = before ++ [Driver.CallConnect c k])
    /\ __queries (self w') = __queries (self w)
    /\ Driver.statements (driver w') = Driver.statements (driver w)
    /\ bound w'.
Proof.
  unfold effective_keyspace, bound. open_world w.
  destruct d as [cs ses sts rs cls].
  cbn [self keyspace __session app driver Driver.sessions Driver.clusters].
  intros [a0 ->] Ht Hh Hr.
  destruct cl, (truthy level) eqn:Hl; run;
    rewrite ?alter_snoc; cbn;
    do 2 eexists; (split; [reflexivity|]); cbn; eauto 12.
Qed.

(** ** The session cache names sessions of the right keyspace *)

Lemma consistent_with_snoc cache objects o :
  consistent_with cache objects -> consistent_with cache (objects ++ [o]).
Proof.
  intros H k r Hk. destruct (H k r Hk) as (o' & Ho & Hks).
  exists o'. split; [|exact Hks].
  rewrite lookup_app_l; [exact Ho | eapply lookup_lt_Some; eauto].
Qed.

Lemma consistent_with_insert cache objects k r o :
  consistent_with cache objects ->
  objects !! r = Some o -> Driver.session_keyspace o = k ->
  consistent_with (<[k := r]> cache) objects.
Proof.
  intros H Ho Hks k' r'. rewrite lookup_insert. case_decide.
  - intros [= <-]. subst. eauto.
  - apply H.
Qed.

Lemma consistent_with_level cache objects i level :
  consistent_with cache objects ->
  consistent_with cache
    (alter (fun o => {| Driver.session_cluster := Driver.session_cluster o;
                        Driver.session_keyspace := Driver.session_keyspace o;
                        Driver.default_consistency_level := Some level |})
           i objects).
Proof.
  intros H k r Hk. destruct (H k r Hk) as (o & Ho & Hks).
  rewrite list_lookup_alter. case_decide.
  - subst i. rewrite Ho. cbn. eexists. split; [reflexivity|]. exact Hks.
  - eauto.
Qed.

Lemma consistent_with_empty objects : consistent_with ∅ objects.
Proof. intros k r. rewrite lookup_empty. discriminate. Qed.

Ltac consistency :=
  unfold sessions_consistent in *; cbn [self driver __session Driver.sessions] in *;
  repeat first
    [ assumption
    | apply consistent_with_empty
    | apply consistent_with_level
    | eapply consistent_with_insert;
        [ | apply lookup_snoc_length | reflexivity ]
    | apply consistent_with_snoc ].

Lemma connect_consistent ks level : preserves sessions_consistent (connect ks level).
Proof.
  intros w H. open_world w. destruct d as [cs ses sts rs cls].
  run; consistency.
Qed.

Lemma init_app_consistent a : preserves sessions_consistent (init_app a).
Proof.
  intros w H. unfold sessions_consistent in *.
  destruct (init_app_self a w) as (_&_&_&_&_&_&_&_&_& -> &_).
  destruct (init_app_driver a w) as (-> &_). exact H.
Qed.

Lemma session_consistent : preserves sessions_consistent session.
Proof. intros w H. apply (connect_consistent (keyspace (self w)) VNone w H). Qed.

Lemma get_session_consistent k : preserves sessions_consistent (get_session k).
Proof. intros w H. apply (connect_consistent k VNone w H). Qed.

Lemma teardown_consistent e : preserves sessions_consistent (teardown e).
Proof. intros w H. open_world w. open_top top; run; consistency. Qed.

Lemma connection_consistent : preserves sessions_consistent connection.
Proof.
  intros w H. open_world w. destruct d as [cs ses sts rs cls].
  open_top top; run; consistency.
Qed.

Lemma prepare_query_consistent n q k f :
  preserves sessions_consistent (prepare_query n q k f).
Proof.
  intros w H. open_world w. destruct d as [cs ses sts rs cls].
  rename q0 into qs. run; consistency.
Qed.

Lemma preserves_bind {A B} (P : World -> Prop) (m : M A) (f : A -> M B) :
  preserves P m -> (forall a, preserves P (f a)) -> preserves P (bind m f).
Proof.
  intros Hm Hf w H. unfold bind. specialize (Hm w H).
  destruct (m w) as [[a|e] w']; cbn in *; [apply Hf; exact Hm | exact Hm].
Qed.

Lemma preserves_ret {A} (P : World -> Prop) (a : A) : preserves P (ret a).
Proof. intros w H. exact H. Qed.

Lemma preserves_raise {A} (P : World -> Prop) e : preserves P (@raise A e).
Proof. intros w H. exact H. Qed.

Lemma preserves_get_self (P : World -> Prop) : preserves P get_self.
Proof. intros w H. exact H. Qed.

Lemma preserves_contains {V} (P : World -> Prop) (d : gmap PyVal V) k :
  preserves P (contains d k).
Proof. unfold contains. destruct (hashable k); intros w H; exact H. Qed.

Lemma preserves_getitem {V} (P : World -> Prop) (d : gmap PyVal V) k :
  preserves P (getitem d k).
Proof. unfold getitem. destruct (d !! k); intros w H; exact H. Qed.

Lemma set___queries_consistent f :
  preserves sessions_consistent (modify_self (fun s => set___queries (f s) s)).
Proof. intros w H. exact H. Qed.

Lemma execute_consistent r q params :
  preserves sessions_consistent (call (Driver.execute r q params)).
Proof. intros w H. exact H. Qed.

Lemma execute_prepared_consistent n k q params :
  preserves sessions_consistent (execute_prepared n k q params).
Proof.
  unfold execute_prepared.
  apply preserves_bind; [apply preserves_get_self | intros s].
  apply preserves_bind; [apply connect_consistent | intros r].
  apply preserves_bind; [apply preserves_get_self | intros s1].
  apply preserves_bind; [apply preserves_contains | intros known].
  apply preserves_bind.
  { destruct (negb known);
      [apply (set___queries_consistent (fun s => <[_ := ∅]> (__queries s)))
      | apply preserves_ret]. }
  intros _.
  apply preserves_bind; [apply preserves_get_self | intros s2].
  apply preserves_bind; [apply preserves_getitem | intros d].
  apply preserves_bind.
  { destruct (negb _); [|apply preserves_ret].
    destruct q; [|apply preserves_raise].
    apply preserves_bind; [apply prepare_query_consistent | intros _].
    apply preserves_ret. }
  intros _. destruct r; [|apply preserves_raise].
  apply preserves_bind; [apply preserves_get_self | intros s3].
  apply preserves_bind; [apply preserves_getitem | intros d'].
  apply execute_consistent.
Qed.

(** The invariant holds of every state a manager can reach. *)
Lemma reachable_consistent w : reachable w -> sessions_consistent w.
Proof.
  induction 1 as [a d top | op w Hw IH].
  - destruct a as [a|]; cbn.
    + apply init_app_consistent. apply consistent_with_empty.
    + apply consistent_with_empty.
  - destruct op; cbn [exec].
    + apply init_app_consistent, IH.
    + apply session_consistent, IH.
    + apply get_session_consistent, IH.
    + apply prepare_query_consistent, IH.
    + apply execute_prepared_consistent, IH.
    + apply connect_consistent, IH.
    + apply teardown_consistent, IH.
    + apply connection_consistent, IH.
    + exact IH.
Qed.

(** What [connect] never touches. *)
Lemma connect_frame w ks level :
  let w' := snd (connect ks level w) in
  keyspace (self w') = keyspace (self w)
  /\ __queries (self w') = __queries (self w)
  /\ Driver.statements (driver w') = Driver.statements (driver w)
  /\ Driver.result_sets (driver w') = Driver.result_sets (driver w)
  /\ stack_top w' = stack_top w
  /\ (bound w -> bound w')
  /\ is_Some (cluster (self w')).
Proof.
  unfold bound. cbv zeta.
  destruct (connect ks level w) as [o w'] eqn:He. cbn [snd]. revert He.
  open_world w. destruct d as [cs ses sts rs cls].
  run; intros [= <- <-]; cbn; repeat split; eauto.
Qed.

(** [connect] works on [keyspace or self.keyspace]; passing that in
    changes nothing. *)
Lemma connect_effective w ks level :
  connect (effective_keyspace ks w) level w = connect ks level w.
Proof.
  unfold connect, effective_keyspace. cbv [bind get_self].
  rewrite py_or_idem. reflexivity.
Qed.

(** On a bound manager [connect] on a keyspace returns a session, the one
    the cache holds afterwards; it has a [Cluster] object afterwards and
    has dropped nothing from the cache. *)
Lemma connect_returns w ks level :
  bound w ->
  truthy (effective_keyspace ks w) = true ->
  hashable (effective_keyspace ks w) = true ->
  exists r w', connect ks level w = (Return (Some r), w')
    /\ __session (self w') !! effective_keyspace ks w = Some r
    /\ is_Some (cluster (self w'))
    /\ bound w'
    /\ keyspace (self w') = keyspace (self w)
    /\ __session (self w) ⊆ __session (self w').
Proof.
  intros Hb Ht Hh.
  destruct (connect_frame w ks level) as (Hk & _ & _ & _ & _ & Hb' & _).
  specialize (Hb' Hb).
  destruct (__session (self w) !! effective_keyspace ks w) as [r|] eqn:Hr.
  - destruct (connect_cached w ks level r Ht Hh Hr) as (w' & Hc & Hs & _ & _ & Hcl).
    rewrite Hc in Hk, Hb'. cbn [snd] in Hk, Hb'.
    exists r, w'. split; [exact Hc|]. rewrite Hs.
    repeat split; auto.
    destruct (cluster (self w)) eqn:E.
    + subst w'. rewrite E. eauto.
    + destruct Hcl as (-> & _). eauto.
  - destruct (connect_miss w ks level Hb Ht Hh Hr)
      as (c & w' & Hc & Hcl & _ & Hs & _).
    rewrite Hc in Hk, Hb'. cbn [snd] in Hk, Hb'.
    exists (length (Driver.sessions (driver w))), w'.
    split; [exact Hc|]. rewrite Hs, Hcl, lookup_insert_eq.
    repeat split; eauto.
    apply insert_subseteq. exact Hr.
Qed.

(** ** [prepare_query] and [execute_prepared] *)

(** A call to [connect] on a cached keyspace, with a [Cluster] object at
    hand, steps to its result. *)
Ltac hit :=
  match goal with
  | |- context [connect ?K ?L ?W] =>
      erewrite (connect_hit W K L)
        by (unfold effective_keyspace; project; facts;
            first [reflexivity | eassumption])
  end.

Ltac step_callers :=
  repeat (progress (facts; bool_norm; unfold_callers; try hit)).

Ltac run_callers := repeat (step_callers; try branch).

(** The first thing [prepare_query] and [execute_prepared] do on a bound
    manager with an effective keyspace: [connect] hands them the session
    cached under it, without touching the prepared statements. *)
Lemma connect_for_query w ks :
  bound w ->
  truthy (effective_keyspace ks w) = true ->
  hashable (effective_keyspace ks w) = true ->
  exists r c w1,
    connect (effective_keyspace ks w) VNone w = (Return (Some r), w1)
    /\ __session (self w1) !! effective_keyspace ks w = Some r
    /\ cluster (self w1) = Some c
    /\ keyspace (self w1) = keyspace (self w)
    /\ __queries (self w1) = __queries (self w)
    /\ Driver.statements (driver w1) = Driver.statements (driver w)
    /\ Driver.result_sets (driver w1) = Driver.result_sets (driver w)
    /\ w1 = snd (connect ks VNone w).
Proof.
  intros Hb Ht Hh.
  assert (He : effective_keyspace (effective_keyspace ks w) w = effective_keyspace ks w)
    by apply py_or_idem.
  destruct (connect_returns w (effective_keyspace ks w) VNone Hb)
    as (r & w1 & Hc & Hr & [c Hcl] & _ & Hk & _); rewrite ?He; auto.
  destruct (connect_frame w (effective_keyspace ks w) VNone)
    as (_ & Hq & Hst & Hrs & _).
  rewrite Hc in Hq, Hst, Hrs. cbn [snd] in Hq, Hst, Hrs. rewrite He in Hr.
  exists r, c, w1. repeat split; auto.
  rewrite <- connect_effective, Hc. reflexivity.
Qed.

Lemma insert_empty_prepared (q : gmap PyVal (gmap string nat)) k k0 (n0 : string) :
  q !! k = None ->
  <[k := ∅]> q !! k0 ≫= (.!! n0) = q !! k0 ≫= (.!! n0).
Proof.
  intros Hk. rewrite lookup_insert. case_decide; [subst|reflexivity].
  rewrite Hk. cbn. apply lookup_empty.
Qed.

Ltac finish :=
  repeat match goal with
    | |- _ /\ _ => split
    | |- _ <-> _ => split
    | |- _ -> _ => intro
    | |- forall _, _ => intro
    | H : _ /\ _ |- _ => destruct H
    | H : exists _, _ |- _ => destruct H
    end;
  try discriminate; try congruence; try reflexivity;
  facts; cbn [mbind option_bind];
  try solve [eauto using insert_empty_prepared];
  try solve [simplify_eq; eexists; repeat split; facts; reflexivity].

(** C2: where the claim has [execute_prepared] execute the statement
    stored under (keyspace, name), the last line looks [query_name] up in
    the outer dictionary, whose keys are keyspaces.  On a bound manager,
    with the statement cached or just compiled, the call raises
    [KeyError(query_name)] and executes nothing, unless a keyspace of that
    very name has been used. *)
Theorem execute_prepared_lookup_by_name w name ks query params :
  bound w ->
  truthy (effective_keyspace ks w) = true ->
  hashable (effective_keyspace ks w) = true ->
  effective_keyspace ks w <> VStr name ->
  __queries (self w) !! VStr name = None ->
  is_Some (prepared w (effective_keyspace ks w) name) \/ is_Some query ->
  exists w',
    execute_prepared name ks query params w = (Raise (KeyError (VStr name)), w')
    /\ is_Some (prepared w' (effective_keyspace ks w) name)
    /\ Driver.result_sets (driver w') = Driver.result_sets (driver w).
Proof.
  intros Hb Ht Hh Hne Hq Hsome.
  destruct (connect_for_query w ks Hb Ht Hh)
    as (r & c & w1 & Hc & Hr & Hcl & Hk & Hqs & _ & Hrs & _).
  unfold execute_prepared. cbv [bind get_self].
  unfold effective_keyspace in Hc. rewrite Hc.
  unfold prepared, effective_keyspace in *.
  rewrite <- Hqs in Hq, Hsome. rewrite <- Hrs. rewrite <- Hk in *.
  clear Hc Hb Hqs Hrs Hk w.
  open_world w1. destruct d as [cs ses sts rs cls]. project_all. subst cl.
  destruct (q !! py_or ks dk) as [dict|] eqn:Hd; cbn [mbind option_bind] in Hsome.
  - destruct (dict !! name) as [st|] eqn:Hst.
    + clear Hsome. run_callers.
      all: eexists; (split; [reflexivity|]); cbn; facts; cbn; facts; eauto.
    + destruct Hsome as [[? [=]] | [qt ->]]. run_callers.
      all: eexists; (split; [reflexivity|]); cbn; facts; cbn; facts; eauto.
  - destruct Hsome as [[? [=]] | [qt ->]]. run_callers.
    all: eexists; (split; [reflexivity|]); cbn; facts; cbn; facts; eauto.
Qed.

(** C3, as the code has it: on a bound manager [execute_prepared] raises
    [ValueError], with the query name in its message, exactly when no
    statement is cached under (keyspace, name) and [query] is [None].  The
    state is then the one [connect] left, with an empty dictionary put
    under the keyspace in [__queries] if there was none: no statement is
    added or lost, but the state is not the one before the call.  When
    [query] is given instead, on an effective keyspace, the statement is
    compiled on that keyspace's session and stored under (keyspace, name). *)
Theorem execute_prepared_value_error w name ks query params :
  bound w ->
  hashable (effective_keyspace ks w) = true ->
  let k := effective_keyspace ks w in
  let w1 := snd (connect ks VNone w) in
  let o := fst (execute_prepared name ks query params w) in
  let w' := snd (execute_prepared name ks query params w) in
  ((exists msg, o = Raise (ValueError msg))
     <-> prepared w k name = None /\ query = None)
  /\ (prepared w k name = None -> query = None ->
        o = Raise (ValueError (no_query_message name))
        /\ self w' =
             set___queries
               (match __queries (self w) !! k with
                | Some _ => __queries (self w)
                | None => <[k := ∅]> (__queries (self w))
                end) (self w1)
        /\ driver w' = driver w1
        /\ stack_top w' = stack_top w1
        /\ forall k0 n0, prepared w' k0 n0 = prepared w k0 n0)
  /\ (prepared w k name = None -> truthy k = true ->
      forall q, query = Some q ->
        exists r, __session (self w') !! k = Some r
          /\ prepared w' k name = Some (length (Driver.statements (driver w)))
          /\ Driver.statements (driver w') =
               Driver.statements (driver w)
               ++ [ {| Driver.statement_session := r;
                       Driver.query_string := q |} ]).
Proof.
  intros Hb Hh. cbv zeta.
  destruct (execute_prepared name ks query params w) as [o w'] eqn:He.
  cbn [fst snd]. revert He.
  unfold execute_prepared. cbv [bind get_self].
  change (py_or ks (keyspace (self w))) with (effective_keyspace ks w).
  rewrite connect_effective.
  destruct (connect_frame w ks VNone) as (Hk & Hqs & Hst & _ & _ & _).
  unfold prepared.
  destruct (truthy (effective_keyspace ks w)) eqn:Ht.
  - destruct (connect_for_query w ks Hb Ht Hh)
      as (r & c & w1 & Hc & Hr & Hcl & _ & _ & _ & _ & Hw1).
    rewrite connect_effective in Hc. rewrite Hc in *. cbn [snd] in Hk, Hqs, Hst |- *.
    unfold effective_keyspace in *.
    rewrite <- Hqs, <- Hk, <- Hst in *.
    clear Hc Hb Hqs Hk Hst Hw1 w.
    open_world w1. destruct d as [cs ses sts rs cls]. project_all. subst cl.
    destruct (q !! py_or ks dk) as [dict|] eqn:Hd; cbn [mbind option_bind];
      [destruct (dict !! name) as [st|] eqn:Hst|]; destruct query as [qt|].
    all: run_callers.
    all: intros [= <- <-]; project; cbn [mbind option_bind].
    all: finish.
  - destruct (connect_no_keyspace w ks VNone Ht) as (w1 & Hc & [c Hcl] & _).
    rewrite Hc in *. cbn [snd] in Hk, Hqs, Hst |- *.
    unfold effective_keyspace in *.
    rewrite <- Hqs, <- Hk, <- Hst in *.
    clear Hc Hb Hqs Hk Hst w.
    open_world w1. destruct d as [cs ses sts rs cls]. project_all. subst cl.
    destruct (q !! py_or ks dk) as [dict|] eqn:Hd; cbn [mbind option_bind];
      [destruct (dict !! name) as [st|] eqn:Hst|]; destruct query as [qt|].
    all: run.
    all: intros [= <- <-]; project; cbn [mbind option_bind].
    all: finish.
Qed.

(** ** The session cache across calls *)

(** C5: on a bound manager, [connect(k)] returns a session; calling it
    again returns the same session and changes nothing, so nothing is
    created; [connect(k')] on another keyspace returns another session.
    The cache holds one session per keyspace, each of them a session
    object opened on that very keyspace. *)
Theorem connect_same_session w k k' l1 l2 l3 :
  reachable w -> bound w ->
  k <> EmptyString -> k' <> EmptyString -> k <> k' ->
  exists r r' w1 w2,
    connect (VStr k) l1 w = (Return (Some r), w1)
    /\ connect (VStr k) l2 w1 = (Return (Some r), w1)
    /\ connect (VStr k') l3 w1 = (Return (Some r'), w2)
    /\ r <> r'
    /\ __session (self w2) !! VStr k = Some r
    /\ __session (self w2) !! VStr k' = Some r'
    /\ (forall ka s s',
          __session (self w2) !! ka = Some s ->
          __session (self w2) !! ka = Some s' -> s = s')
    /\ (forall ka s,
          __session (self w2) !! ka = Some s ->
          exists o, Driver.sessions (driver w2) !! s = Some o
                    /\ Driver.session_keyspace o = ka).
Proof.
  intros Hreach Hb Hk Hk' Hne.
  assert (Heff : forall s w0, s <> EmptyString ->
            effective_keyspace (VStr s) w0 = VStr s).
  { intros s w0 Hs. apply py_or_truthy, truthy_VStr, Hs. }
  destruct (connect_returns w (VStr k) l1 Hb)
    as (r & w1 & H1 & Hr & [c Hc] & Hb1 & _ & _).
  { rewrite Heff by done. apply truthy_VStr, Hk. }
  { rewrite Heff by done. reflexivity. }
  rewrite Heff in Hr by done.
  destruct (connect_returns w1 (VStr k') l3 Hb1)
    as (r' & w2 & H2 & Hr' & _ & _ & _ & Hsub).
  { rewrite Heff by done. apply truthy_VStr, Hk'. }
  { rewrite Heff by done. reflexivity. }
  rewrite Heff in Hr' by done.
  assert (Hr2 : __session (self w2) !! VStr k = Some r)
    by (eapply lookup_weaken; eauto).
  assert (Hcons : sessions_consistent w2).
  { apply reachable_consistent.
    replace w2 with (exec (OpConnect (VStr k') l3) w1)
      by (cbn [exec]; rewrite H2; reflexivity).
    apply reachable_exec.
    replace w1 with (exec (OpConnect (VStr k) l1) w)
      by (cbn [exec]; rewrite H1; reflexivity).
    apply reachable_exec, Hreach. }
  exists r, r', w1, w2. split; [exact H1|]. split.
  { apply (connect_hit w1 (VStr k) l2 r c); rewrite ?Heff by done; auto.
    apply truthy_VStr, Hk. }
  split; [exact H2|]. split; [|split; [exact Hr2|split; [exact Hr'|split]]].
  - intros ->. apply Hne.
    destruct (Hcons _ _ Hr2) as (o & Ho & Hko).
    destruct (Hcons _ _ Hr') as (o' & Ho' & Hko').
    congruence.
  - congruence.
  - exact Hcons.
Qed.

(** C1: the claim has [init_app] discard the cached sessions.  It does
    reset [__queries] and [cluster], but the dictionary it empties is
    [__sessions], not the [__session] that [connect] reads: a session
    cached before [init_app] is returned by [connect] after it, and no
    session is opened. *)
Theorem init_app_keeps_cached_sessions a w ks level r :
  truthy ks = true ->
  hashable ks = true ->
  __session (self w) !! ks = Some r ->
  let w1 := snd (init_app a w) in
  cluster (self w1) = None
  /\ __queries (self w1) = ∅
  /\ __session (self w1) = __session (self w)
  /\ exists w2, connect ks level w1 = (Return (Some r), w2)
                /\ Driver.sessions (driver w2) = Driver.sessions (driver w).
Proof.
  intros Ht Hh Hr w1.
  destruct (init_app_self a w) as (_&_&_&_&_&_& Hcl & Hq &_& Hs &_).
  destruct (init_app_driver a w) as (Hd & _).
  fold w1 in Hcl, Hq, Hs, Hd.
  repeat split; auto.
  assert (He : effective_keyspace ks w1 = ks) by (apply py_or_truthy, Ht).
  destruct (connect_cached w1 ks level r) as (w2 & Hc & _ & _ & Hses & _);
    rewrite ?He, ?Hs; auto.
  exists w2. split; [exact Hc|]. congruence.
Qed.


(** C8: on a cached keyspace [connect] returns the cached session and
    leaves the cache and every session object as they are, whatever
    [level]; but with [cluster] reset by [init_app] and the cache still
    full, it constructs a new [Cluster] object: the handle does change. *)
Theorem connect_cached_constructs_cluster w ks level r :
  truthy (effective_keyspace ks w) = true ->
  hashable (effective_keyspace ks w) = true ->
  __session (self w) !! effective_keyspace ks w = Some r ->
  cluster (self w) = None ->
  exists w', connect ks level w = (Return (Some r), w')
    /\ __session (self w') = __session (self w)
    /\ Driver.sessions (driver w') = Driver.sessions (driver w)
    /\ cluster (self w') = Some (length (Driver.clusters (driver w)))
    /\ cluster (self w') <> cluster (self w)
    /\ exists more,
         Driver.calls (driver w') =
           Driver.calls (driver w)
           ++ Driver.CallCluster (nodes (self w)) (port (self w)) :: more.
Proof.
  intros Ht Hh Hr Hcl.
  destruct (connect_cached w ks level r Ht Hh Hr) as (w' & Hc & Hs & _ & Hses & Hm).
  rewrite Hcl in Hm. destruct Hm as (Hcl' & Hmore).
  exists w'. repeat split; auto. rewrite Hcl', Hcl. discriminate.
Qed.


(** C9: on a keyspace that is not cached, a bound manager opens a new
    session on its [Cluster] object for that keyspace, caches it under the
    keyspace and returns it.  The level is assigned under [if level], so a
    supplied level that is false in Python, such as 0
    ([ConsistencyLevel.ANY]), is dropped. *)
Theorem connect_opens_session w ks level :
  bound w ->
  truthy (effective_keyspace ks w) = true ->
  hashable (effective_keyspace ks w) = true ->
  __session (self w) !! effective_keyspace ks w = None ->
  let k := effective_keyspace ks w in
  exists r c w', connect ks level w = (Return (Some r), w')
    /\ cluster (self w') = Some c
    /\ __session (self w') = <[k := r]> (__session (self w))
    /\ Driver.sessions (driver w) !! r = None
    /\ Driver.sessions (driver w') !! r =
         Some {| Driver.session_cluster := c;
                 Driver.session_keyspace := k;
                 Driver.default_consistency_level :=
                   if truthy level then Some level else None |}
    /\ (exists before,
          Driver.calls (driver w') = before ++ [Driver.CallConnect c k]).
Proof.
  intros Hb Ht Hh Hr k.
  destruct (connect_miss w ks level Hb Ht Hh Hr)
    as (c & w' & Hc & Hcl & _ & Hs & Hses & Hcalls & _).
  exists (length (Driver.sessions (driver w))), c, w'.
  repeat split; auto.
  - apply lookup_ge_None_2. lia.
  - rewrite Hses. apply lookup_snoc_length.
Qed.


(** ** The [connection] property *)

(** C10: outside a context [connection] returns [None] and changes
    nothing.  Inside one it returns the context's [cassandra_cluster] if
    the attribute exists, without any change; otherwise it calls
    [connect()], stores [self.cluster] in the attribute and returns it. *)
Theorem connection_by_context w top :
  stack_top w = top ->
  match top with
  | None => connection w = (Return None, w)
  | Some c =>
      match Flask.cassandra_cluster c with
      | Some v => connection w = (Return v, w)
      | None =>
          match connect VNone VNone w with
          | (Return _, w1) =>
              is_Some (cluster (self w1))
              /\ connection w =
                   (Return (cluster (self w1)),
                    snd (set_top
                           (Some {| Flask.cassandra_cluster := Some (cluster (self w1)) |})
                           w1))
          | (Raise e, w1) => connection w = (Raise e, w1)
          end
      end
  end.
Proof.
  intros <-. destruct (stack_top w) as [[[v|]]|] eqn:Htop.
  - open_world w. cbn in Htop. subst. reflexivity.
  - cbn [Flask.cassandra_cluster].
    destruct (connect_frame w VNone VNone) as (_ & _ & _ & _ & _ & _ & Hcl).
    unfold connection. cbv [bind get_top]. rewrite Htop. cbn [Flask.cassandra_cluster].
    destruct (connect VNone VNone w) as [[o|e] w1]; cbn [snd] in Hcl.
    + split; [exact Hcl|]. open_world w1. reflexivity.
    + reflexivity.
  - open_world w. cbn in Htop. subst. reflexivity.
Qed.

(** ** The statements on concrete managers *)

Lemma keyspace_world_bound : bound keyspace_world.
Proof. vm_compute. eauto. Defined.

Lemma keyspace_world_reachable : reachable keyspace_world.
Proof. apply reachable_init. Defined.

Lemma rebound_world_reachable : reachable rebound_world.
Proof.
  unfold rebound_world, connected_world, keyspace_world.
  do 2 apply reachable_exec. apply reachable_init.
Defined.

(** Re-binding with the other configuration: [connect('ks')] still returns
    session 0, opened before on the old cluster. *)
Lemma init_app_keeps_cached_sessions_witness :
  let w1 := snd (init_app (Flask.new scenario_config) connected_world) in
  cluster (self w1) = None
  /\ __queries (self w1) = ∅
  /\ __session (self w1) = __session (self connected_world)
  /\ exists w2, connect (VStr "ks") (VInt 1) w1 = (Return (Some 0), w2)
                /\ Driver.sessions (driver w2)
                   = Driver.sessions (driver connected_world).
Proof.
  apply (init_app_keeps_cached_sessions (Flask.new scenario_config)
           connected_world (VStr "ks") (VInt 1) 0);
    vm_compute; reflexivity.
Defined.

(** [prepare_query('q', ...)] then [execute_prepared('q')]: [KeyError]. *)
Lemma execute_prepared_lookup_by_name_witness :
  exists w',
    execute_prepared "q" VNone None [] prepared_world
      = (Raise (KeyError (VStr "q")), w')
    /\ is_Some (prepared w' (effective_keyspace VNone prepared_world) "q")
    /\ Driver.result_sets (driver w') = Driver.result_sets (driver prepared_world).
Proof.
  apply (execute_prepared_lookup_by_name prepared_world "q" VNone None []).
  - vm_compute. eauto.
  - vm_compute. reflexivity.
  - vm_compute. reflexivity.
  - vm_compute. discriminate.
  - vm_compute. reflexivity.
  - left. vm_compute. eauto.
Defined.

(** When the query is named like the keyspace, the lookup succeeds and the
    driver is handed the keyspace's whole dictionary. *)
Example execute_prepared_passes_dictionary :
  exists w',
    execute_prepared "ks" VNone (Some "SELECT now() FROM system.local") []
      keyspace_world = (Return 0, w')
    /\ last (Driver.calls (driver w'))
       = Some (Driver.CallExecute 0 (Driver.ArgDict {[ "ks" := 0 ]}) []).
Proof. eexists. split; vm_compute; reflexivity. Qed.

(** C3 as claimed fails: [execute_prepared('q')] with nothing prepared
    raises [ValueError], and the manager is not what it was: it has a
    cluster, a session for the keyspace and an empty dictionary of
    statements for it. *)
Lemma execute_prepared_error_changes_state :
  let result := execute_prepared "q" VNone None [] keyspace_world in
  fst result = Raise (ValueError (no_query_message "q"))
  /\ cluster (self keyspace_world) = None
  /\ cluster (self (snd result)) = Some 0
  /\ __session (self keyspace_world) !! VStr "ks" = None
  /\ __session (self (snd result)) !! VStr "ks" = Some 0
  /\ __queries (self keyspace_world) !! VStr "ks" = None
  /\ __queries (self (snd result)) !! VStr "ks" = Some ∅
  /\ snd result <> keyspace_world.
Proof.
  intros result.
  assert (E1 : fst result = Raise (ValueError (no_query_message "q")))
    by (vm_compute; reflexivity).
  assert (E2 : cluster (self (snd result)) = Some 0)
    by (vm_compute; reflexivity).
  assert (E5 : cluster (self keyspace_world) = None)
    by (vm_compute; reflexivity).
  split; [exact E1|]. split; [exact E5|]. split; [exact E2|].
  split; [vm_compute; reflexivity|].
  split; [vm_compute; reflexivity|].
  split; [vm_compute; reflexivity|].
  split; [vm_compute; reflexivity|].
  intros H. rewrite H in E2. rewrite E5 in E2. discriminate E2.
Qed.

Lemma execute_prepared_value_error_witness :
  let k := effective_keyspace VNone keyspace_world in
  let w1 := snd (connect VNone VNone keyspace_world) in
  let o := fst (execute_prepared "q" VNone None [] keyspace_world) in
  let w' := snd (execute_prepared "q" VNone None [] keyspace_world) in
  ((exists msg, o = Raise (ValueError msg))
     <-> prepared keyspace_world k "q" = None /\ @None string = None)
  /\ (prepared keyspace_world k "q" = None -> @None string = None ->
        o = Raise (ValueError (no_query_message "q"))
        /\ self w' =
             set___queries
               (match __queries (self keyspace_world) !! k with
                | Some _ => __queries (self keyspace_world)
                | None => <[k := ∅]> (__queries (self keyspace_world))
                end) (self w1)
        /\ driver w' = driver w1
        /\ stack_top w' = stack_top w1
        /\ forall k0 n0, prepared w' k0 n0 = prepared keyspace_world k0 n0)
  /\ (prepared keyspace_world k "q" = None -> truthy k = true ->
      forall q, None = Some q ->
        exists r, __session (self w') !! k = Some r
          /\ prepared w' k "q"
             = Some (length (Driver.statements (driver keyspace_world)))
          /\ Driver.statements (driver w') =
               Driver.statements (driver keyspace_world)
               ++ [ {| Driver.statement_session := r;
                       Driver.query_string := q |} ]).
Proof.
  apply (execute_prepared_value_error keyspace_world "q" VNone None []).
  - exact keyspace_world_bound.
  - vm_compute. reflexivity.
Defined.

(** The scenario NODES=["h1"], PORT=1234, USER="u", PASSWORD="p". *)
Lemma connect_constructs_cluster_witness :
  let w' := snd (connect VNone VNone scenario_world) in
  cluster (self w') = Some 0
  /\ (exists rest,
        Driver.calls (driver w') =
          [] ++ Driver.CallCluster (VList ["h1"]) (VInt 1234)
             :: [Driver.CallPlainTextAuthProvider (VStr "u") (VStr "p")] ++ rest
        /\ (rest = [] \/ exists k, rest = [Driver.CallConnect 0 k]))
  /\ Driver.clusters (driver w') =
       [] ++ [ {| Driver.contact_points := VList ["h1"];
                  Driver.port := VInt 1234;
                  Driver.auth_provider :=
                    Some {| Driver.username := VStr "u";
                            Driver.password := VStr "p" |};
                  Driver.is_shutdown := false |} ]
  /\ (VStr "u" = VNone \/ VStr "p" = VNone -> true = false).
Proof.
  exact (connect_constructs_cluster scenario_world VNone VNone eq_refl).
Defined.

Lemma connect_same_session_witness :
  exists r r' w1 w2,
    connect (VStr "a") VNone keyspace_world = (Return (Some r), w1)
    /\ connect (VStr "a") (VInt 4) w1 = (Return (Some r), w1)
    /\ connect (VStr "b") VNone w1 = (Return (Some r'), w2)
    /\ r <> r'
    /\ __session (self w2) !! VStr "a" = Some r
    /\ __session (self w2) !! VStr "b" = Some r'
    /\ (forall ka s s',
          __session (self w2) !! ka = Some s ->
          __session (self w2) !! ka = Some s' -> s = s')
    /\ (forall ka s,
          __session (self w2) !! ka = Some s ->
          exists o, Driver.sessions (driver w2) !! s = Some o
                    /\ Driver.session_keyspace o = ka).
Proof.
  apply (connect_same_session keyspace_world "a" "b" VNone (VInt 4) VNone).
  - exact keyspace_world_reachable.
  - exact keyspace_world_bound.
  - discriminate.
  - discriminate.
  - discriminate.
Defined.

Lemma init_app_normalizes_nodes_witness :
  let w' := snd (init_app (Flask.new keyspace_config) unbound_world) in
  (forall s, VStr "cassandra.example.com" = VStr s ->
     nodes (self w') = VList [s]
     /\ exists a', app (self w') = Some a'
                   /\ Flask.config a' !! "CASSANDRA_NODES" = Some (VList [s]))
  /\ (forall l, VStr "cassandra.example.com" = VList l ->
     nodes (self w') = VList l
     /\ exists a', app (self w') = Some a'
                   /\ Flask.config a' !! "CASSANDRA_NODES" = Some (VList l)).
Proof.
  apply (init_app_normalizes_nodes (Flask.new keyspace_config) unbound_world
           (VStr "cassandra.example.com")).
  vm_compute. reflexivity.
Defined.

(** [connect('ks')], [init_app(app)], [connect('ks', 4)]: the cached
    session comes back and a second [Cluster] is constructed. *)
Lemma connect_cached_constructs_cluster_witness :
  exists w', connect (VStr "ks") (VInt 4) rebound_world = (Return (Some 0), w')
    /\ __session (self w') = __session (self rebound_world)
    /\ Driver.sessions (driver w') = Driver.sessions (driver rebound_world)
    /\ cluster (self w') = Some (length (Driver.clusters (driver rebound_world)))
    /\ cluster (self w') <> cluster (self rebound_world)
    /\ exists more,
         Driver.calls (driver w') =
           Driver.calls (driver rebound_world)
           ++ Driver.CallCluster (nodes (self rebound_world))
                (port (self rebound_world)) :: more.
Proof.
  apply (connect_cached_constructs_cluster rebound_world (VStr "ks") (VInt 4) 0);
    vm_compute; reflexivity.
Defined.

(** [connect('ks', 0)]: the session is opened and its level is left
    alone. *)
Lemma connect_opens_session_witness :
  exists r c w', connect (VStr "ks") (VInt 0) keyspace_world = (Return (Some r), w')
    /\ cluster (self w') = Some c
    /\ __session (self w') = <[VStr "ks" := r]> (__session (self keyspace_world))
    /\ Driver.sessions (driver keyspace_world) !! r = None
    /\ Driver.sessions (driver w') !! r =
         Some {| Driver.session_cluster := c;
                 Driver.session_keyspace := VStr "ks";
                 Driver.default_consistency_level := None |}
    /\ (exists before,
          Driver.calls (driver w') = before ++ [Driver.CallConnect c (VStr "ks")]).
Proof.
  apply (connect_opens_session keyspace_world (VStr "ks") (VInt 0)).
  - exact keyspace_world_bound.
  - vm_compute. reflexivity.
  - vm_compute. reflexivity.
  - vm_compute. reflexivity.
Defined.

Lemma connection_by_context_witness :
  connection keyspace_world = (Return None, keyspace_world).
Proof.
  assert (H : stack_top keyspace_world = None) by (vm_compute; reflexivity).
  exact (connection_by_context keyspace_world None H).
Defined.

(** Inside a context: the cluster is constructed and stored in the
    context; the default keyspace's session is opened on the way. *)
Example connection_in_context :
  let result := connection context_world in
  fst result = Return (Some 0)
  /\ stack_top (snd result) = Some {| Flask.cassandra_cluster := Some (Some 0) |}
  /\ cluster (self (snd result)) = Some 0.
Proof. vm_compute. repeat split. Qed.

(** The first steps of the repository's [test_connect]: on a default
    configuration [connect()] constructs the cluster from
    [['localhost']] and 9042, constructs no auth provider and returns
    [None]. *)
Example test_connect_defaults :
  let result :=
    connect VNone VNone (snd (__init__ (Some (Flask.new ∅)) Driver.empty None)) in
  fst result = Return None
  /\ Driver.calls (driver (snd result))
     = [Driver.CallCluster (VList ["localhost"]) (VInt 9042)].
Proof. vm_compute. repeat split. Qed.

(** [test_session_property]: without a default keyspace the [session]
    property is [None]; with one it is a session. *)
Example test_session_property :
  fst (session (snd (__init__ (Some (Flask.new ∅)) Driver.empty None)))
    = Return None
  /\ fst (session keyspace_world) = Return (Some 0).
Proof. vm_compute. repeat split. Qed.

(** * Beyond the claims: the rest of the manager *)

(** ** [prepare_query] *)

(** X1: on a bound manager with an effective keyspace, [prepare_query]
    returns a statement and stores it under (keyspace, name); it compiles
    only if none was stored, on the session cached for the keyspace.  Asked
    again without [force], with whatever query text, it returns the same
    statement and changes nothing. *)
Theorem prepare_query_compiles_once w name query query' ks :
  bound w ->
  truthy (effective_keyspace ks w) = true ->
  hashable (effective_keyspace ks w) = true ->
  let k := effective_keyspace ks w in
  exists p r w1,
    prepare_query name query ks false w = (Return p, w1)
    /\ prepared w1 k name = Some p
    /\ __session (self w1) !! k = Some r
    /\ prepare_query name query' ks false w1 = (Return p, w1)
    /\ match prepared w k name with
       | Some p0 =>
           p = p0
           /\ Driver.statements (driver w1) = Driver.statements (driver w)
       | None =>
           p = length (Driver.statements (driver w))
           /\ Driver.statements (driver w1) =
                Driver.statements (driver w)
                ++ [ {| Driver.statement_session := r;
                        Driver.query_string := query |} ]
       end.
Proof.
  intros Hb Ht Hh. cbv zeta.
  destruct (connect_for_query w ks Hb Ht Hh)
    as (r & c & w0 & Hc & Hr & Hcl & Hk & Hqs & Hst & _ & _).
  unfold prepare_query at 1. cbv [bind get_self].
  unfold effective_keyspace in Hc. rewrite Hc.
  unfold prepared, effective_keyspace in *.
  rewrite <- Hqs, <- Hk, <- Hst in *.
  clear Hc Hb Hqs Hk Hst w.
  open_world w0. destruct d as [cs ses sts rs cls]. project_all. subst cl.
  destruct (q !! py_or ks dk) as [dict|] eqn:Hd; cbn [mbind option_bind];
    [destruct (dict !! name) as [st|] eqn:Hst|].
  all: run_callers.
  all: do 3 eexists; (split; [reflexivity|]); project; cbn [mbind option_bind].
  all: facts; cbn [mbind option_bind]; facts.
  all: repeat split; try reflexivity; try eassumption.
  all: run_callers; try reflexivity.
Qed.

Lemma insert_inner_prepared (q : gmap PyVal (gmap string nat)) k d name p k0 n0 :
  q !! k = Some d ->
  k0 <> k \/ n0 <> name ->
  <[k := <[name := p]> d]> q !! k0 ≫= (.!! n0) = q !! k0 ≫= (.!! n0).
Proof.
  intros Hk Hne. rewrite lookup_insert. case_decide; [subst|reflexivity].
  rewrite Hk. cbn. apply lookup_insert_ne. destruct Hne; congruence.
Qed.

Lemma insert_fresh_prepared (q : gmap PyVal (gmap string nat)) k name p k0 n0 :
  q !! k = None ->
  k0 <> k \/ n0 <> name ->
  <[k := <[name := p]> ∅]> (<[k := ∅]> q) !! k0 ≫= (.!! n0) = q !! k0 ≫= (.!! n0).
Proof.
  intros Hk Hne. rewrite insert_insert_eq, lookup_insert.
  case_decide; [subst|reflexivity].
  rewrite Hk. cbn. rewrite lookup_insert_ne by (destruct Hne; congruence).
  apply lookup_empty.
Qed.

(** X2: with [force=True], [prepare_query] compiles again even when a
    statement is stored: the driver's [prepare] is called on the keyspace's
    session, the new statement replaces the entry under (keyspace, name), and
    the statements under every other keyspace or name stay as they are. *)
Theorem prepare_query_force w name query ks :
  bound w ->
  truthy (effective_keyspace ks w) = true ->
  hashable (effective_keyspace ks w) = true ->
  let k := effective_keyspace ks w in
  let p := length (Driver.statements (driver w)) in
  exists r w1,
    prepare_query name query ks true w = (Return p, w1)
    /\ prepared w1 k name = Some p
    /\ __session (self w1) !! k = Some r
    /\ Driver.statements (driver w1) =
         Driver.statements (driver w)
         ++ [ {| Driver.statement_session := r; Driver.query_string := query |} ]
    /\ (exists before,
          Driver.calls (driver w1) = before ++ [Driver.CallPrepare r query])
    /\ (forall k0 n0, k0 <> k \/ n0 <> name ->
          prepared w1 k0 n0 = prepared w k0 n0).
Proof.
  intros Hb Ht Hh. cbv zeta.
  destruct (connect_for_query w ks Hb Ht Hh)
    as (r & c & w0 & Hc & Hr & Hcl & Hk & Hqs & Hst & _ & _).
  unfold prepare_query at 1. cbv [bind get_self].
  unfold effective_keyspace in Hc. rewrite Hc.
  unfold prepared, effective_keyspace in *.
  rewrite <- Hqs, <- Hk, <- Hst in *.
  clear Hc Hb Hqs Hk Hst w.
  open_world w0. destruct d as [cs ses sts rs cls]. project_all. subst cl.
  destruct (q !! py_or ks dk) as [dict|] eqn:Hd.
  all: run_callers.
  all: do 2 eexists; (split; [reflexivity|]); project; cbn [mbind option_bind].
  all: facts; cbn [mbind option_bind]; facts.
  all: repeat split; eauto using insert_inner_prepared, insert_fresh_prepared.
Qed.

(** X3: without an effective keyspace [connect] hands [prepare_query] no
    session, so a call that has to compile raises [AttributeError] on
    [None.prepare]; the cluster exists by then, no statement was added or
    lost. *)
Theorem prepare_query_without_keyspace w name query ks force :
  truthy (effective_keyspace ks w) = false ->
  hashable (effective_keyspace ks w) = true ->
  force = true \/ prepared w (effective_keyspace ks w) name = None ->
  exists w1,
    prepare_query name query ks force w
      = (Raise (AttributeError "'NoneType' object has no attribute 'prepare'"), w1)
    /\ is_Some (cluster (self w1))
    /\ __session (self w1) = __session (self w)
    /\ driver w1 = driver (snd (connect ks VNone w))
    /\ (forall k0 n0, prepared w1 k0 n0 = prepared w k0 n0).
Proof.
  intros Ht Hh Hf.
  destruct (prepare_query name query ks force w) as [o w'] eqn:He. revert He.
  unfold prepare_query. cbv [bind get_self].
  change (py_or ks (keyspace (self w))) with (effective_keyspace ks w).
  rewrite connect_effective.
  destruct (connect_frame w ks VNone) as (Hk & Hqs & _).
  destruct (connect_no_keyspace w ks VNone Ht) as (w0 & Hc & [c Hcl] & Hs & _).
  rewrite Hc in *. cbn [snd] in *.
  unfold prepared, effective_keyspace in *.
  rewrite <- Hqs, <- Hk, <- Hs in *.
  clear Hc Hqs Hk Hs w.
  open_world w0. destruct d as [cs ses sts rs cls]. project_all. subst cl.
  destruct (q !! py_or ks dk) as [dict|] eqn:Hd; cbn [mbind option_bind] in Hf;
    [destruct (dict !! name) as [st|] eqn:Hst|];
    destruct force; destruct Hf as [Hf | Hf]; try discriminate.
  all: run; intros [= <- <-].
  all: eexists; (split; [reflexivity|]); project; cbn [mbind option_bind].
  all: repeat split; eauto using insert_empty_prepared.
Qed.

(** ** [session], [get_session] and [connect] *)

Lemma py_or_same a : py_or a a = a.
Proof. unfold py_or. destruct (truthy a); reflexivity. Qed.

(** X4: the [session] property, [connect()] without arguments,
    [get_session(None)] and [get_session(self.keyspace)] are one and the same
    operation. *)
Theorem session_is_connect w :
  session w = connect VNone VNone w
  /\ session w = get_session VNone w
  /\ session w = get_session (keyspace (self w)) w.
Proof.
  assert (H : session w = connect VNone VNone w).
  { unfold session. cbv [bind get_self].
    rewrite <- (connect_effective w VNone), <- (connect_effective w (keyspace (self w))).
    unfold effective_keyspace. rewrite py_or_same. reflexivity. }
  repeat split; auto.
Qed.

(** X5: a manager that was never bound has no application to log to:
    [connect] on a keyspace that is not cached raises [AttributeError] on
    [self.app.logger].  The [Cluster] object has been constructed by then;
    no session is opened or cached. *)
Theorem connect_unbound w ks level :
  app (self w) = None ->
  truthy (effective_keyspace ks w) = true ->
  hashable (effective_keyspace ks w) = true ->
  __session (self w) !! effective_keyspace ks w = None ->
  exists w',
    connect ks level w
      = (Raise (AttributeError "'NoneType' object has no attribute 'logger'"), w')
    /\ is_Some (cluster (self w'))
    /\ __session (self w') = __session (self w)
    /\ Driver.sessions (driver w') = Driver.sessions (driver w)
    /\ (cluster (self w) = None ->
        exists more,
          Driver.calls (driver w') =
            Driver.calls (driver w)
            ++ Driver.CallCluster (nodes (self w)) (port (self w)) :: more).
Proof.
  unfold effective_keyspace. open_world w. destruct d as [cs ses sts rs cls].
  project_all. intros -> Ht Hh Hr.
  destruct cl; run; eexists; (split; [reflexivity|]); project;
    rewrite <- ?app_assoc; repeat split; eauto; discriminate.
Qed.

(** X6: [init_app] reads [CASSANDRA_CONSISTENCY_LEVEL] into
    [self.default_consistency_level], and nothing uses it: a session opened
    through [get_session] gets no level assigned, whatever was configured. *)
Theorem configured_level_not_applied a w0 ks :
  let w := snd (init_app a w0) in
  truthy (effective_keyspace ks w) = true ->
  hashable (effective_keyspace ks w) = true ->
  __session (self w) !! effective_keyspace ks w = None ->
  default_consistency_level (self w)
    = config_value "CASSANDRA_CONSISTENCY_LEVEL" VNone a
  /\ exists r o w',
       get_session ks w = (Return (Some r), w')
       /\ Driver.sessions (driver w') !! r = Some o
       /\ Driver.session_keyspace o = effective_keyspace ks w
       /\ Driver.default_consistency_level o = None.
Proof.
  intros w Ht Hh Hr.
  destruct (init_app_self a w0) as (_&_&_&_&_& Hl &_&_&_&_& Hb).
  fold w in Hl, Hb. split; [exact Hl|].
  destruct (connect_miss w ks VNone Hb Ht Hh Hr)
    as (c & w' & Hc & _ & _ & _ & Hses & _).
  do 3 eexists. split; [exact Hc|]. rewrite Hses.
  split; [apply lookup_snoc_length|]. split; reflexivity.
Qed.

(** ** [connection] and [teardown] *)

(** X7: inside a context, once [connection] has returned a handle, reading
    it again returns the same handle and changes nothing: the context holds
    it. *)
Theorem connection_stable w v w1 :
  stack_top w <> None ->
  connection w = (Return v, w1) ->
  connection w1 = (Return v, w1)
  /\ stack_top w1 = Some {| Flask.cassandra_cluster := Some v |}.
Proof.
  intros Htop. destruct (stack_top w) as [[[v0|]]|] eqn:Ht; [| |congruence].
  - open_world w. cbn in Ht. subst. cbn. intros [= <- <-]. split; reflexivity.
  - unfold connection at 1. cbv [bind get_top]. rewrite Ht.
    cbn [Flask.cassandra_cluster].
    destruct (connect VNone VNone w) as [[o|e] w0]; [|discriminate].
    open_world w0. cbn. intros [= <- <-]. split; reflexivity.
Qed.

(** X8: [teardown] calls [shutdown()] on the cluster held by the context and
    touches nothing else: the manager keeps [self.cluster] and its cached
    sessions, the context keeps the attribute.  Afterwards [connection]
    still returns the cluster that was shut down, and [connect] on a cached
    keyspace still returns the cached session, without any new object. *)
Theorem teardown_keeps_handles w e c o :
  stack_top w = Some {| Flask.cassandra_cluster := Some (Some c) |} ->
  Driver.clusters (driver w) !! c = Some o ->
  exists w',
    teardown e w = (Return tt, w')
    /\ self w' = self w
    /\ stack_top w' = stack_top w
    /\ Driver.sessions (driver w') = Driver.sessions (driver w)
    /\ Driver.calls (driver w') = Driver.calls (driver w) ++ [Driver.CallShutdown c]
    /\ (exists o', Driver.clusters (driver w') !! c = Some o'
                   /\ Driver.is_shutdown o' = true
                   /\ Driver.contact_points o' = Driver.contact_points o)
    /\ connection w' = (Return (Some c), w')
    /\ (forall ks level r c0,
          truthy (effective_keyspace ks w) = true ->
          hashable (effective_keyspace ks w) = true ->
          __session (self w) !! effective_keyspace ks w = Some r ->
          cluster (self w) = Some c0 ->
          connect ks level w' = (Return (Some r), w')).
Proof.
  intros Htop Ho. open_world w. destruct d as [cs ses sts rs cls].
  project_all. subst top. unfold_callers.
  eexists. split; [reflexivity|]. project.
  repeat split.
  - rewrite list_lookup_alter_eq, Ho. cbn. eexists. repeat split.
  - unfold effective_keyspace. project. intros ks level r c0 Ht Hh Hr Hcl.
    apply (connect_hit _ ks level r c0); unfold effective_keyspace; project; auto.
Qed.

(** X9: outside a context, or in a context whose [cassandra_cluster] was
    never set, [teardown] does nothing, whatever exception it is handed. *)
Theorem teardown_without_handle w e :
  stack_top w = None
  \/ stack_top w = Some {| Flask.cassandra_cluster := None |} ->
  teardown e w = (Return tt, w).
Proof.
  open_world w. project_all. intros [-> | ->]; reflexivity.
Qed.

(** ** [init_app] *)

(** X10: [init_app] inside a context that holds a cluster shuts that
    cluster down and resets [self.cluster], but leaves the attribute on the
    context: [connection] then returns the cluster that was shut down and
    constructs none. *)
Theorem init_app_keeps_context_handle a w c :
  stack_top w = Some {| Flask.cassandra_cluster := Some (Some c) |} ->
  let w' := snd (init_app a w) in
  fst (init_app a w) = Return tt
  /\ Driver.calls (driver w') = Driver.calls (driver w) ++ [Driver.CallShutdown c]
  /\ cluster (self w') = None
  /\ connection w' = (Return (Some c), w')
  /\ length (Driver.clusters (driver (snd (connection w'))))
     = length (Driver.clusters (driver w)).
Proof.
  intros Htop. cbv zeta.
  destruct (init_app a w) as [o w'] eqn:He. cbn [fst snd]. revert He.
  open_world w. destruct a as [cfg hta f1 f2 lg]. destruct d as [cs ses sts rs cls].
  project_all. subst top. settings cfg.
  destruct hta; unfold_methods; intros [= <- <-]; project;
    rewrite ?length_alter; repeat split.
Qed.

(** X11: each [init_app] that returns registers [self.teardown] once more,
    with [teardown_appcontext] when the application has it and with
    [teardown_request] otherwise; nothing is registered when shutting down
    the context's cluster raised.  The application's log is not written. *)
Theorem init_app_registers_teardown a w :
  exists a',
    app (self (snd (init_app a w))) = Some a'
    /\ Flask.logger a' = Flask.logger a
    /\ Flask.has_teardown_appcontext a' = Flask.has_teardown_appcontext a
    /\ match fst (init_app a w) with
       | Return _ =>
           if Flask.has_teardown_appcontext a
           then Flask.teardown_appcontext_funcs a'
                  = Flask.teardown_appcontext_funcs a ++ [Flask.SelfTeardown]
                /\ Flask.teardown_request_funcs a' = Flask.teardown_request_funcs a
           else Flask.teardown_request_funcs a'
                  = Flask.teardown_request_funcs a ++ [Flask.SelfTeardown]
                /\ Flask.teardown_appcontext_funcs a'
                   = Flask.teardown_appcontext_funcs a
       | Raise _ =>
           Flask.teardown_appcontext_funcs a' = Flask.teardown_appcontext_funcs a
           /\ Flask.teardown_request_funcs a' = Flask.teardown_request_funcs a
       end.
Proof.
  destruct (init_app a w) as [o w'] eqn:He. cbn [fst snd]. revert He.
  open_world w. destruct a as [cfg hta f1 f2 lg].
  settings cfg.
  open_top top; destruct hta; unfold_methods; intros [= <- <-]; project;
    eexists; (split; [reflexivity|]); cbn; repeat split.
Qed.

Lemma setdefault_present {V} (k : string) (v : V) (d : gmap string V) :
  is_Some (d !! k) -> setdefault k v d = d.
Proof. intros [x Hx]. unfold setdefault. rewrite Hx. reflexivity. Qed.

Lemma setdefault_overlay {V} (k0 k : string) (v : V) (d : gmap string V) :
  setdefault k0 v d !! k =
  match d !! k with
  | Some x => Some x
  | None => if decide (k0 = k) then Some v else None
  end.
Proof.
  rewrite setdefault_lookup. case_decide; [subst|]; destruct (d !! k); reflexivity.
Qed.

Lemma set_defaults_overlay cfg k :
  set_defaults cfg !! k =
  match cfg !! k with
  | Some v => Some v
  | None => set_defaults ∅ !! k
  end.
Proof.
  unfold set_defaults. rewrite !setdefault_overlay, lookup_empty.
  destruct (cfg !! k); reflexivity.
Qed.

Lemma init_app_stores_config a w :
  exists a',
    app (self (snd (init_app a w))) = Some a'
    /\ Flask.config a' =
         match default (VList ["localhost"]) (Flask.config a !! "CASSANDRA_NODES") with
         | VStr s => <["CASSANDRA_NODES" := VList [s]]> (set_defaults (Flask.config a))
         | _ => set_defaults (Flask.config a)
         end.
Proof.
  destruct (init_app a w) as [o w'] eqn:He. cbn [snd]. revert He.
  open_world w. destruct a as [cfg hta f1 f2 lg].
  settings cfg.
  open_top top; destruct hta; unfold_methods; intros [= <- <-]; project;
    eexists; (split; [reflexivity|]); reflexivity.
Qed.

(** X12: what [init_app] leaves in [app.config]: a configured value is
    kept ([setdefault] never overrides), except that a string under
    [CASSANDRA_NODES] becomes a one-element list; a key that was absent
    holds its default if it is one of the six settings and stays absent
    otherwise.  Binding again to the resulting application changes nothing
    in the configuration. *)
Theorem init_app_config a w :
  exists a',
    app (self (snd (init_app a w))) = Some a'
    /\ (forall k v, Flask.config a !! k = Some v ->
          Flask.config a' !! k
          = Some (match v with
                  | VStr s => if decide (k = "CASSANDRA_NODES") then VList [s] else v
                  | _ => v
                  end))
    /\ (forall k, Flask.config a !! k = None ->
          Flask.config a' !! k = set_defaults ∅ !! k)
    /\ (forall w2 a2,
          app (self (snd (init_app a' w2))) = Some a2 ->
          Flask.config a2 = Flask.config a').
Proof.
  destruct (init_app_stores_config a w) as (a' & Ha & Hcfg).
  exists a'. split; [exact Ha|].
  destruct (set_defaults_lookup (Flask.config a)) as (Hn & Hp & Hu & Hpw & Hk & Hl).
  assert (Hother : forall k, k <> "CASSANDRA_NODES" ->
            Flask.config a' !! k = set_defaults (Flask.config a) !! k).
  { intros k Hne. rewrite Hcfg. apply normalized_lookup, Hne. }
  pose proof (normalized_lookup_nodes _ _ Hn) as Hnodes. rewrite <- Hcfg in Hnodes.
  pose proof (set_defaults_overlay (Flask.config a)) as Hsd.
  split; [|split].
  - intros k v Hv. destruct (decide (k = "CASSANDRA_NODES")) as [->|Hne].
    + rewrite Hnodes, Hv. cbn. destruct v; reflexivity.
    + rewrite Hother, Hsd, Hv by exact Hne.
      destruct v; reflexivity.
  - intros k Hv. destruct (decide (k = "CASSANDRA_NODES")) as [->|Hne].
    + rewrite Hnodes, Hv. reflexivity.
    + rewrite Hother, Hsd, Hv by exact Hne. reflexivity.
  - intros w2 a2 Ha2.
    destruct (init_app_stores_config a' w2) as (a2' & Ha2' & Hcfg2).
    rewrite Ha2 in Ha2'. injection Ha2' as <-.
    assert (Hfix : set_defaults (Flask.config a') = Flask.config a').
    { unfold set_defaults.
      rewrite (setdefault_present "CASSANDRA_CONSISTENCY_LEVEL")
        by (rewrite Hother, Hl by discriminate; eauto).
      rewrite (setdefault_present "CASSANDRA_NODES") by (rewrite Hnodes; eauto).
      rewrite (setdefault_present "CASSANDRA_PORT")
        by (rewrite Hother, Hp by discriminate; eauto).
      rewrite (setdefault_present "CASSANDRA_USER")
        by (rewrite Hother, Hu by discriminate; eauto).
      rewrite (setdefault_present "CASSANDRA_PASSWORD")
        by (rewrite Hother, Hpw by discriminate; eauto).
      rewrite (setdefault_present "CASSANDRA_KEYSPACE")
        by (rewrite Hother, Hk by discriminate; eauto).
      reflexivity. }
    rewrite Hcfg2, Hfix, Hnodes. cbn.
    destruct (default _ _); reflexivity.
Qed.

(** ** What only [init_app] changes *)

Section NonRebinding.

Variable P : World -> Prop.
Hypothesis P_connect : forall ks level, preserves P (connect ks level).
Hypothesis P_frame : forall w w', same_handles w w' -> P w -> P w'.

Lemma frame_step {A} (m : M A) :
  (forall w, same_handles w (snd (m w))) -> preserves P m.
Proof. intros H w Hw. eapply P_frame; [apply H | exact Hw]. Qed.

Lemma same_handles_refl w : same_handles w w.
Proof. repeat split. Qed.

Lemma prepare_query_preserves n q k f : preserves P (prepare_query n q k f).
Proof.
  unfold prepare_query.
  apply preserves_bind; [apply preserves_get_self | intros s].
  apply preserves_bind; [apply P_connect | intros r].
  apply preserves_bind; [apply preserves_get_self | intros s1].
  apply preserves_bind; [apply preserves_contains | intros known].
  apply preserves_bind.
  { destruct (negb known); [|apply preserves_ret].
    apply frame_step. intros w. repeat split. }
  intros _.
  apply preserves_bind; [apply preserves_get_self | intros s2].
  apply preserves_bind; [apply preserves_getitem | intros d].
  apply preserves_bind.
  { destruct (_ || _); [|apply preserves_ret].
    destruct r; [|apply preserves_raise].
    apply preserves_bind.
    - apply frame_step. intros w. repeat split.
    - intros p. apply frame_step. intros w. repeat split. }
  intros _.
  apply preserves_bind; [apply preserves_get_self | intros s3].
  apply preserves_bind; [apply preserves_getitem | intros d'].
  destruct (d' !! n); [apply preserves_ret | apply preserves_raise].
Qed.

Lemma execute_prepared_preserves n k q params :
  preserves P (execute_prepared n k q params).
Proof.
  unfold execute_prepared.
  apply preserves_bind; [apply preserves_get_self | intros s].
  apply preserves_bind; [apply P_connect | intros r].
  apply preserves_bind; [apply preserves_get_self | intros s1].
  apply preserves_bind; [apply preserves_contains | intros known].
  apply preserves_bind.
  { destruct (negb known); [|apply preserves_ret].
    apply frame_step. intros w. repeat split. }
  intros _.
  apply preserves_bind; [apply preserves_get_self | intros s2].
  apply preserves_bind; [apply preserves_getitem | intros d].
  apply preserves_bind.
  { destruct (negb _); [|apply preserves_ret].
    destruct q; [|apply preserves_raise].
    apply preserves_bind; [apply prepare_query_preserves | intros _].
    apply preserves_ret. }
  intros _. destruct r; [|apply preserves_raise].
  apply preserves_bind; [apply preserves_get_self | intros s3].
  apply preserves_bind; [apply preserves_getitem | intros d'].
  apply frame_step. intros w. repeat split.
Qed.

Lemma teardown_preserves e : preserves P (teardown e).
Proof.
  apply frame_step. intros w. open_world w.
  open_top top; unfold_callers; repeat split; cbn; apply length_alter.
Qed.

Lemma connection_preserves : preserves P connection.
Proof.
  unfold connection.
  apply preserves_bind; [intros w H; exact H | intros ctx].
  destruct ctx as [[[v|]]|]; [| |apply preserves_ret].
  - apply preserves_bind; [apply preserves_ret | intros _].
    apply frame_step. intros w. open_world w. open_top top; repeat split.
  - apply preserves_bind.
    + apply preserves_bind; [apply P_connect | intros _].
      apply preserves_bind; [apply preserves_get_self | intros s].
      apply frame_step. intros w. repeat split.
    + intros _. apply frame_step. intros w. open_world w. open_top top; repeat split.
Qed.

Lemma exec_preserves op w : rebinds op = false -> P w -> P (exec op w).
Proof.
  destruct op as [a| |k0| | | | | |]; cbn [rebinds exec]; try discriminate;
    intros _ H.
  - apply (P_connect (keyspace (self w)) VNone w H).
  - apply (P_connect k0 VNone w H).
  - apply prepare_query_preserves, H.
  - apply execute_prepared_preserves, H.
  - apply P_connect, H.
  - apply teardown_preserves, H.
  - apply connection_preserves, H.
  - eapply P_frame; [|exact H]. repeat split.
Qed.

End NonRebinding.

(** X13: no operation but [init_app] replaces the [Cluster] object: with
    one at hand, every other operation keeps it and constructs no other. *)
Theorem cluster_handle_kept op w c :
  rebinds op = false ->
  cluster (self w) = Some c ->
  cluster (self (exec op w)) = Some c
  /\ length (Driver.clusters (driver (exec op w)))
     = length (Driver.clusters (driver w)).
Proof.
  intros Hop Hc.
  apply (exec_preserves
           (fun w' => cluster (self w') = Some c
                      /\ length (Driver.clusters (driver w'))
                         = length (Driver.clusters (driver w)))); auto.
  - clear. intros ks level w0 [Hc Hl]. revert Hl.
    generalize (length (Driver.clusters (driver w))). intros n.
    destruct (connect ks level w0) as [o w'] eqn:He. cbn [snd]. revert He.
    open_world w0. destruct d as [cs ses sts rs cls]. project_all. subst cl.
    intros He Hl. revert He.
    run; intros [= <- <-]; project; auto.
  - clear. intros w0 w' (Hs & Hl & _) [Hc Hn]. split; [|congruence].
    specialize (Hs ∅ None). apply (f_equal cluster) in Hs. cbn in Hs. congruence.
Qed.

(** X14: no operation but [init_app] drops or replaces a cached session. *)
Theorem cached_sessions_kept op w k r :
  rebinds op = false ->
  __session (self w) !! k = Some r ->
  __session (self (exec op w)) !! k = Some r.
Proof.
  intros Hop Hk.
  apply (exec_preserves (fun w' => __session (self w') !! k = Some r)); auto.
  - clear. intros ks level w0 Hk.
    destruct (connect ks level w0) as [o w'] eqn:He. cbn [snd]. revert He.
    open_world w0. destruct d as [cs ses sts rs cls]. project_all.
    run; intros [= <- <-]; project; auto.
    all: rewrite lookup_insert_ne; [assumption | congruence].
  - clear. intros w0 w' (Hs & _) Hk.
    specialize (Hs ∅ None). apply (f_equal __session) in Hs. cbn in Hs. congruence.
Qed.

(** X15: no operation but [init_app] changes the settings ([nodes],
    [port], [user], [password], [keyspace], [default_consistency_level]). *)
Theorem settings_kept op w :
  rebinds op = false ->
  let s := self w in
  let s' := self (exec op w) in
  nodes s' = nodes s /\ port s' = port s /\ user s' = user s
  /\ password s' = password s /\ keyspace s' = keyspace s
  /\ default_consistency_level s' = default_consistency_level s.
Proof.
  intros Hop. cbv zeta.
  apply (exec_preserves
           (fun w' => nodes (self w') = nodes (self w)
                      /\ port (self w') = port (self w)
                      /\ user (self w') = user (self w)
                      /\ password (self w') = password (self w)
                      /\ keyspace (self w') = keyspace (self w)
                      /\ default_consistency_level (self w')
                         = default_consistency_level (self w))); auto.
  - clear. intros ks level w0.
    generalize (self w). intros s0.
    destruct (connect ks level w0) as [o w'] eqn:He. cbn [snd]. revert He.
    open_world w0. destruct d as [cs ses sts rs cls]. project_all.
    run; intros [= <- <-]; project; auto.
  - clear. intros w0 w' (Hs & _) H.
    specialize (Hs ∅ None).
    pose proof (f_equal nodes Hs). pose proof (f_equal port Hs).
    pose proof (f_equal user Hs). pose proof (f_equal password Hs).
    pose proof (f_equal keyspace Hs).
    pose proof (f_equal default_consistency_level Hs).
    cbn in *. intuition congruence.
  - repeat split.
Qed.

(** ** [connect] without a keyspace, whenever it is called *)

(** Without an effective keyspace [connect] returns [None].  With a
    [Cluster] object at hand it changes nothing at all.  Without one it
    constructs exactly one, from [self.nodes] and [self.port], gives it a
    [PlainTextAuthProvider] when both the user and the password are set,
    stores it in [self.cluster], and touches nothing else. *)
Lemma connect_no_keyspace_exact w ks level :
  truthy (effective_keyspace ks w) = false ->
  exists w', connect ks level w = (Return None, w')
    /\ match cluster (self w) with
       | Some _ => w' = w
       | None =>
           let c := length (Driver.clusters (driver w)) in
           let both := truthy (user (self w)) && truthy (password (self w)) in
           self w' = set_cluster (Some c) (self w)
           /\ stack_top w' = stack_top w
           /\ Driver.sessions (driver w') = Driver.sessions (driver w)
           /\ Driver.statements (driver w') = Driver.statements (driver w)
           /\ Driver.result_sets (driver w') = Driver.result_sets (driver w)
           /\ Driver.clusters (driver w') =
                Driver.clusters (driver w)
                ++ [ {| Driver.contact_points := nodes (self w);
                        Driver.port := port (self w);
                        Driver.auth_provider :=
                          if both
                          then Some {| Driver.username := user (self w);
                                       Driver.password := password (self w) |}
                          else None;
                        Driver.is_shutdown := false |} ]
           /\ Driver.calls (driver w') =
                Driver.calls (driver w)
                ++ Driver.CallCluster (nodes (self w)) (port (self w))
                   :: (if both
                       then [Driver.CallPlainTextAuthProvider
                               (user (self w)) (password (self w))]
                       else [])
       end.
Proof.
  unfold effective_keyspace. open_world w. destruct d as [cs ses sts rs cls].
  project_all. intros Hk.
  destruct cl as [c|]; project.
  - run. eexists. split; reflexivity.
  - cbv zeta. rewrite <- truthy_py_and.
    destruct (truthy (py_and u pw)) eqn:Hb; run;
      eexists; (split; [reflexivity|]); project;
      rewrite ?alter_snoc, <- ?app_assoc; repeat split.
Qed.

(** [connect] keeps [self.cluster] naming a constructed object, on every
    path, raising ones included. *)
Lemma connect_cluster_built ks level :
  preserves cluster_built (connect ks level).
Proof.
  intros w. unfold cluster_built.
  destruct (connect ks level w) as [o w'] eqn:He. cbn [snd]. revert He.
  open_world w. destruct d as [cs ses sts rs cls].
  run; intros [= <- <-]; cbn; intros H c0 [= <-];
    rewrite ?length_alter, ?lookup_app_r, ?length_app by lia;
    try (apply H; reflexivity).
  all: try (apply lookup_lt_is_Some; rewrite ?length_alter, ?length_app; cbn; lia).
Qed.

Lemma frame_cluster_built w w' :
  same_handles w w' -> cluster_built w -> cluster_built w'.
Proof.
  intros (Hs & Hl & _) H c Hc.
  specialize (Hs ∅ None). apply (f_equal cluster) in Hs. cbn in Hs.
  apply lookup_lt_is_Some. rewrite Hl. apply lookup_lt_is_Some, H. congruence.
Qed.

(** No call but [init_app] assigns [self.keyspace]. *)
Lemma exec_keeps_keyspace op w :
  rebinds op = false -> keyspace (self (exec op w)) = keyspace (self w).
Proof.
  intros Hop.
  apply (exec_preserves (fun w' => keyspace (self w') = keyspace (self w))); auto.
  - intros ks level w0 H.
    destruct (connect_frame w0 ks level) as (Hk & _). congruence.
  - intros w0 w' (Hs & _) H. specialize (Hs ∅ None).
    apply (f_equal keyspace) in Hs. cbn in Hs. congruence.
Qed.

Lemma run_ops_keeps_binding ops w :
  Forall (fun op => rebinds op = false) ops ->
  keyspace (self (run_ops ops w)) = keyspace (self w)
  /\ (cluster_built w -> cluster_built (run_ops ops w)).
Proof.
  intros H. revert w. induction H as [|op ops Hop _ IH]; intros w; [split; auto|].
  change (run_ops (op :: ops) w) with (run_ops ops (exec op w)).
  destruct (IH (exec op w)) as [Hk Hc]. split.
  - rewrite Hk. apply exec_keeps_keyspace, Hop.
  - intros Hw. apply Hc.
    apply (exec_preserves cluster_built connect_cluster_built frame_cluster_built);
      [exact Hop | exact Hw].
Qed.

(** C6: take a manager in any state [w0], bind it with [init_app] to a
    configuration whose [CASSANDRA_KEYSPACE] is absent, [None] or otherwise
    false in Python, and let any calls follow that do not bind it again,
    returning or raising.  Then [connect()] returns [None] and does not
    raise.  Afterwards [self.cluster] names a [Cluster] object of the
    driver; no session is opened or cached.  If the manager had a
    [Cluster] object already, nothing at all has changed; if it had none,
    [connect] has called [Cluster(self.nodes, self.port)] once, has given
    the new object a [PlainTextAuthProvider] exactly when the user and the
    password are both set, and has assigned it to [self.cluster], no other
    attribute being touched. *)
Theorem connect_without_keyspace a w0 ops level :
  truthy (config_value "CASSANDRA_KEYSPACE" VNone a) = false ->
  Forall (fun op => rebinds op = false) ops ->
  let w := run_ops ops (snd (init_app a w0)) in
  exists w', connect VNone level w = (Return None, w')
    /\ (exists c, cluster (self w') = Some c
                  /\ is_Some (Driver.clusters (driver w') !! c))
    /\ __session (self w') = __session (self w)
    /\ Driver.sessions (driver w') = Driver.sessions (driver w)
    /\ match cluster (self w) with
       | Some _ => w' = w
       | None =>
           let c := length (Driver.clusters (driver w)) in
           let both := truthy (user (self w)) && truthy (password (self w)) in
           self w' = set_cluster (Some c) (self w)
           /\ Driver.clusters (driver w') =
                Driver.clusters (driver w)
                ++ [ {| Driver.contact_points := nodes (self w);
                        Driver.port := port (self w);
                        Driver.auth_provider :=
                          if both
                          then Some {| Driver.username := user (self w);
                                       Driver.password := password (self w) |}
                          else None;
                        Driver.is_shutdown := false |} ]
           /\ Driver.calls (driver w') =
                Driver.calls (driver w)
                ++ Driver.CallCluster (nodes (self w)) (port (self w))
                   :: (if both
                       then [Driver.CallPlainTextAuthProvider
                               (user (self w)) (password (self w))]
                       else [])
       end.
Proof.
  intros Hcfg Hops w.
  destruct (init_app_self a w0) as (_ & _ & _ & _ & Hk & _ & Hcl & _).
  destruct (run_ops_keeps_binding ops (snd (init_app a w0)) Hops) as [Hk' Hb].
  fold w in Hk', Hb.
  assert (Hw : cluster_built w).
  { apply Hb. intros c Hc. rewrite Hcl in Hc. discriminate Hc. }
  assert (Hf : truthy (effective_keyspace VNone w) = false).
  { unfold effective_keyspace, py_or. cbn [truthy]. rewrite Hk', Hk. exact Hcfg. }
  destruct (connect_no_keyspace_exact w VNone level Hf) as (w' & Hr & Hx).
  exists w'. split; [exact Hr|].
  unfold cluster_built in Hw.
  destruct (cluster (self w)) as [c|] eqn:Ec.
  - subst w'. rewrite Ec. repeat split. exists c. split; [reflexivity|].
    apply Hw. reflexivity.
  - cbv zeta in Hx. destruct Hx as (Hs & _ & Hss & _ & _ & Hcs & Hcalls).
    split; [|split; [|split; [|repeat split]]].
    + eexists. rewrite Hs. split; [reflexivity|].
      rewrite Hcs. apply lookup_lt_is_Some. rewrite length_app. cbn. lia.
    + rewrite Hs. reflexivity.
    + exact Hss.
    + exact Hs.
    + exact Hcs.
    + exact Hcalls.
Qed.

(** ** [__repr__] *)

Lemma append_assoc (a b c : string) :
  String.append (String.append a b) c = String.append a (String.append b c).
Proof.
  induction a as [|x a IH]; [reflexivity|].
  change (String x (String.append (String.append a b) c)
          = String x (String.append a (String.append b c))).
  rewrite IH. reflexivity.
Qed.

Lemma append_empty_r (a : string) : String.append a EmptyString = a.
Proof.
  induction a as [|x a IH]; [reflexivity|].
  change (String x (String.append a EmptyString) = String x a).
  rewrite IH. reflexivity.
Qed.

Lemma occurs_in_refl p : occurs_in p p.
Proof.
  exists EmptyString, EmptyString.
  change (p = String.append p EmptyString). rewrite append_empty_r. reflexivity.
Qed.

Lemma occurs_in_append_l p s t : occurs_in p s -> occurs_in p (String.append s t).
Proof.
  intros (b & a & ->). exists b, (String.append a t).
  rewrite !append_assoc. reflexivity.
Qed.

Lemma occurs_in_append_r p s t : occurs_in p t -> occurs_in p (String.append s t).
Proof.
  intros (b & a & ->). exists (String.append s b), a.
  rewrite !append_assoc. reflexivity.
Qed.

Lemma printable_cases v :
  (truthy v = false /\ printable v = true)
  \/ (exists t, v = VStr t /\ truthy v = true /\ printable v = true)
  \/ (truthy v = true /\ printable v = false
      /\ forall s, add_str s v = raise (TypeError (concat_message (type_name v)))).
Proof.
  unfold printable. destruct v as [|z|t|l]; cbn [truthy].
  - left. split; reflexivity.
  - destruct (negb (Z.eqb z 0)); [right; right | left]; repeat split.
  - destruct (negb (String.eqb t EmptyString)) eqn:E; [right; left | left].
    + exists t. repeat split.
    + split; reflexivity.
  - destruct l; [left | right; right]; repeat split.
Qed.

Lemma add_str_str s t : add_str s (VStr t) = ret (String.append s t).
Proof. reflexivity. Qed.

Ltac repr_step :=
  cbv [__repr__ bind ret raise join len get_self]; project.

Ltac repr_case v :=
  let t := fresh "t" in let H := fresh "H" in let Hp := fresh "Hp" in
  let Ha := fresh "Ha" in
  destruct (printable_cases v) as [[H Hp] | [(t & -> & H & Hp) | (H & Hp & Ha)]];
  rewrite ?H, ?Hp, ?add_str_str; [ | | rewrite ?Ha ]; repr_step.

(** When [__repr__] returns and when it raises. *)
Lemma repr_outcome str_of_list w :
  snd (__repr__ str_of_list w) = w
  /\ ((exists s, fst (__repr__ str_of_list w) = Return s)
      <-> printable (user (self w)) && printable (password (self w))
          && iterable (nodes (self w)) && printable (keyspace (self w)) = true)
  /\ (forall e, fst (__repr__ str_of_list w) = Raise e -> exists msg, e = TypeError msg).
Proof.
  destruct (__repr__ str_of_list w) as [o w'] eqn:He. cbn [fst snd]. revert He.
  open_world w. repr_step.
  repr_case u.
  3: { intros [= <- <-]. repeat split; try (intros [? [=]]); try discriminate.
       intros e [= <-]. eauto. }
  all: repr_case pw.
  3, 6: intros [= <- <-]; repeat split; try (intros [? [=]]); try discriminate;
        intros e [= <-]; eauto.
  all: destruct n as [|z|hs|hl]; repr_step.
  all: try (intros [= <- <-]; repeat split; try (intros [? [=]]); try discriminate;
            intros e [= <-]; eauto; fail).
  all: repr_case dk.
  all: intros [= <- <-]; repeat split; eauto; try discriminate;
       try (intros [? [=]]); intros e [= <-]; eauto.
Qed.

(** X16: on a manager whose settings are values of [PyVal], that is,
    each of them [None], an integer, a [str] or a list of [str],
    [__repr__] reads the manager and changes nothing.  On those managers
    it returns exactly when [user], [password] and [keyspace] are each
    false in Python or a [str], and [nodes] is a [str] or a list of [str];
    otherwise ([nodes] is [None] or an integer, or one of the other three
    is a non-zero integer or a non-empty list) it raises [TypeError].
    Settings outside [PyVal], such as a tuple or a list with an element
    that is no [str], are not covered. *)
Theorem repr_returns_iff str_of_list w :
  snd (__repr__ str_of_list w) = w
  /\ ((exists s, fst (__repr__ str_of_list w) = Return s)
      <-> printable (user (self w)) && printable (password (self w))
          && iterable (nodes (self w)) && printable (keyspace (self w)) = true)
  /\ (forall e, fst (__repr__ str_of_list w) = Raise e -> exists msg, e = TypeError msg).
Proof. apply repr_outcome. Qed.

(** X17: after [init_app] on a configuration of [PyVal] values whose
    user, password and keyspace are absent, false in Python or a [str],
    and whose nodes are absent, a [str] or a list of [str], [__repr__]
    returns a string and leaves the state as it is.  A list of nodes with
    an element that is no [str], and a tuple, are no values of [PyVal] and
    are not covered. *)
Theorem repr_after_init_app str_of_list a w :
  printable (config_value "CASSANDRA_USER" VNone a) = true ->
  printable (config_value "CASSANDRA_PASSWORD" VNone a) = true ->
  printable (config_value "CASSANDRA_KEYSPACE" VNone a) = true ->
  iterable (config_value "CASSANDRA_NODES" (VList ["localhost"]) a) = true ->
  exists s, __repr__ str_of_list (snd (init_app a w)) = (Return s, snd (init_app a w)).
Proof.
  intros Hu Hp Hk Hn.
  destruct (init_app_self a w) as (En & _ & Eu & Ep & Ek & _).
  destruct (repr_outcome str_of_list (snd (init_app a w))) as (Hs & Hiff & _).
  destruct Hiff as [_ Hret]. destruct Hret as [s Hfst].
  { rewrite En, Eu, Ep, Ek, Hu, Hp, Hk.
    destruct (config_value "CASSANDRA_NODES" (VList ["localhost"]) a);
      try discriminate; reflexivity. }
  exists s. destruct (__repr__ str_of_list (snd (init_app a w))) as [o w'].
  cbn [fst snd] in *. congruence.
Qed.

(** X18: whenever a password is set, the string [__repr__] returns
    contains it in clear, after a colon. *)
Theorem repr_shows_password str_of_list w p s :
  password (self w) = VStr p ->
  p <> EmptyString ->
  fst (__repr__ str_of_list w) = Return s ->
  occurs_in (String.append ":" p) s.
Proof.
  intros Hpw Hne.
  destruct (__repr__ str_of_list w) as [o w'] eqn:He. cbn [fst]. revert He.
  open_world w. project_all. subst pw. repr_step.
  rewrite (truthy_VStr p Hne), add_str_str.
  repr_case u; [ | | intros [= <- <-]; discriminate ].
  all: destruct n as [|z|hs|hl]; repr_step;
       try (intros [= <- <-]; discriminate).
  all: repr_case dk; intros [= <- <-]; try discriminate; intros [= <-].
  all: repeat match goal with
         | |- context [if ?b then _ else _] => destruct b
         end.
  all: eauto 12 using occurs_in_refl, occurs_in_append_l, occurs_in_append_r.
Qed.

(** ** Statements and their sessions *)

Lemma prepared_on_session cache queries objects k r :
  prepared_on cache queries objects -> cache !! k = None ->
  prepared_on (<[k := r]> cache) queries objects.
Proof.
  intros H Hk k0 n p Hp. destruct (H k0 n p Hp) as (st & r0 & Hst & Hr0 & Hs).
  exists st, r0. repeat split; auto.
  rewrite lookup_insert_ne; [exact Hr0 | congruence].
Qed.

Lemma prepared_on_empty_dict cache queries objects k :
  prepared_on cache queries objects ->
  prepared_on cache (<[k := ∅]> queries) objects.
Proof.
  intros H k0 n p. rewrite lookup_insert. case_decide.
  - cbn. rewrite lookup_empty. discriminate.
  - apply H.
Qed.

Lemma prepared_on_snoc cache queries objects st :
  prepared_on cache queries objects ->
  prepared_on cache queries (objects ++ [st]).
Proof.
  intros H k n p Hp. destruct (H k n p Hp) as (st0 & r0 & Hst & Hr0 & Hs).
  exists st0, r0. repeat split; auto.
  rewrite lookup_app_l; [exact Hst | eapply lookup_lt_Some; eauto].
Qed.

Lemma prepared_on_store cache queries objects k d n p st r :
  prepared_on cache queries objects ->
  queries !! k = Some d ->
  objects !! p = Some st -> cache !! k = Some r ->
  Driver.statement_session st = r ->
  prepared_on cache (<[k := <[n := p]> d]> queries) objects.
Proof.
  intros H Hd Hst Hr Hs k0 n0 p0. rewrite lookup_insert. case_decide.
  - subst k0. cbn. rewrite lookup_insert. case_decide.
    + intros [= <-]. eauto.
    + intros Hp. apply (H k n0 p0). rewrite Hd. exact Hp.
  - apply H.
Qed.

Lemma prepared_on_none cache objects : prepared_on cache ∅ objects.
Proof. intros k n p. rewrite lookup_empty. discriminate. Qed.

Ltac statements :=
  unfold statements_consistent in *;
  cbn [self driver __session __queries Driver.statements] in *;
  repeat first
    [ assumption
    | apply prepared_on_none
    | eapply prepared_on_store;
        [ | first [eassumption | apply lookup_insert_eq]
          | apply lookup_snoc_length
          | first [eassumption | apply lookup_insert_eq]
          | reflexivity ]
    | apply prepared_on_snoc
    | apply prepared_on_empty_dict
    | apply prepared_on_session; [ | assumption ] ].

Lemma connect_statements ks level : preserves statements_consistent (connect ks level).
Proof.
  intros w H. open_world w. destruct d as [cs ses sts rs cls].
  run; statements.
Qed.

Lemma prepare_query_statements n q k f :
  preserves statements_consistent (prepare_query n q k f).
Proof.
  intros w H. open_world w. destruct d as [cs ses sts rs cls].
  rename q0 into qs. run; statements.
Qed.

Lemma frame_statements {A} (m : M A) :
  (forall w, __session (self (snd (m w))) = __session (self w)
             /\ __queries (self (snd (m w))) = __queries (self w)
             /\ Driver.statements (driver (snd (m w))) = Driver.statements (driver w)) ->
  preserves statements_consistent m.
Proof.
  intros H w Hw. destruct (H w) as (Hs & Hq & Hst).
  unfold statements_consistent. rewrite Hs, Hq, Hst. exact Hw.
Qed.

Lemma execute_prepared_statements n k q params :
  preserves statements_consistent (execute_prepared n k q params).
Proof.
  unfold execute_prepared.
  apply preserves_bind; [apply preserves_get_self | intros s].
  apply preserves_bind; [apply connect_statements | intros r].
  apply preserves_bind; [apply preserves_get_self | intros s1].
  apply preserves_bind; [apply preserves_contains | intros known].
  apply preserves_bind.
  { destruct (negb known); [|apply preserves_ret].
    intros w H. apply prepared_on_empty_dict, H. }
  intros _.
  apply preserves_bind; [apply preserves_get_self | intros s2].
  apply preserves_bind; [apply preserves_getitem | intros d].
  apply preserves_bind.
  { destruct (negb _); [|apply preserves_ret].
    destruct q; [|apply preserves_raise].
    apply preserves_bind; [apply prepare_query_statements | intros _].
    apply preserves_ret. }
  intros _. destruct r; [|apply preserves_raise].
  apply preserves_bind; [apply preserves_get_self | intros s3].
  apply preserves_bind; [apply preserves_getitem | intros d'].
  apply frame_statements. intros w. repeat split.
Qed.

Lemma teardown_statements e : preserves statements_consistent (teardown e).
Proof.
  apply frame_statements. intros w. open_world w.
  open_top top; unfold_callers; repeat split.
Qed.

Lemma connection_statements : preserves statements_consistent connection.
Proof.
  unfold connection.
  apply preserves_bind; [intros w H; exact H | intros ctx].
  destruct ctx as [[[v|]]|]; [| |apply preserves_ret].
  - apply preserves_bind; [apply preserves_ret | intros _].
    apply frame_statements. intros w. open_world w. open_top top; repeat split.
  - apply preserves_bind.
    + apply preserves_bind; [apply connect_statements | intros _].
      apply preserves_bind; [apply preserves_get_self | intros s].
      apply frame_statements. intros w. repeat split.
    + intros _. apply frame_statements. intros w. open_world w.
      open_top top; repeat split.
Qed.

Lemma init_app_statements a w : statements_consistent (snd (init_app a w)).
Proof.
  unfold statements_consistent.
  destruct (init_app_self a w) as (_&_&_&_&_&_&_& -> &_).
  apply prepared_on_none.
Qed.

Lemma reachable_statements_consistent w : reachable w -> statements_consistent w.
Proof.
  intros Hw.
  induction Hw as [a d top | op w Hw IH].
  - destruct a as [a|]; cbn.
    + apply init_app_statements.
    + apply prepared_on_none.
  - destruct op as [a| |k0| | | | | |]; cbn [exec].
    + apply init_app_statements.
    + apply (connect_statements (keyspace (self w)) VNone w IH).
    + apply (connect_statements k0 VNone w IH).
    + apply prepare_query_statements, IH.
    + apply execute_prepared_statements, IH.
    + apply connect_statements, IH.
    + apply teardown_statements, IH.
    + apply connection_statements, IH.
    + exact IH.
Qed.

(** X19: in every state a manager can reach, a statement stored under
    (keyspace, name) is a statement object of the driver that was prepared
    on the session cached for that keyspace, itself a session opened on
    that keyspace. *)
Theorem reachable_statements w k n p :
  reachable w ->
  prepared w k n = Some p ->
  exists st r o,
    Driver.statements (driver w) !! p = Some st
    /\ Driver.statement_session st = r
    /\ __session (self w) !! k = Some r
    /\ Driver.sessions (driver w) !! r = Some o
    /\ Driver.session_keyspace o = k.
Proof.
  intros Hw Hp.
  destruct (reachable_statements_consistent w Hw k n p Hp) as (st & r & Hst & Hr & Hs).
  destruct (reachable_consistent w Hw k r Hr) as (o & Ho & Hk).
  exists st, r, o. repeat split; auto.
Qed.

(** ** The further statements on concrete managers *)

Lemma prepare_query_compiles_once_witness :
  exists p r w1,
    prepare_query "q" "SELECT 1" VNone false keyspace_world = (Return p, w1)
    /\ prepared w1 (effective_keyspace VNone keyspace_world) "q" = Some p
    /\ __session (self w1) !! effective_keyspace VNone keyspace_world = Some r
    /\ prepare_query "q" "SELECT 2" VNone false w1 = (Return p, w1)
    /\ match prepared keyspace_world (effective_keyspace VNone keyspace_world) "q" with
       | Some p0 =>
           p = p0
           /\ Driver.statements (driver w1)
              = Driver.statements (driver keyspace_world)
       | None =>
           p = length (Driver.statements (driver keyspace_world))
           /\ Driver.statements (driver w1) =
                Driver.statements (driver keyspace_world)
                ++ [ {| Driver.statement_session := r;
                        Driver.query_string := "SELECT 1" |} ]
       end.
Proof.
  apply (prepare_query_compiles_once keyspace_world "q" "SELECT 1" "SELECT 2" VNone).
  - exact keyspace_world_bound.
  - vm_compute. reflexivity.
  - vm_compute. reflexivity.
Defined.

Lemma prepare_query_force_witness :
  exists r w1,
    prepare_query "q" "SELECT 2" VNone true prepared_world
      = (Return (length (Driver.statements (driver prepared_world))), w1)
    /\ prepared w1 (effective_keyspace VNone prepared_world) "q"
       = Some (length (Driver.statements (driver prepared_world)))
    /\ __session (self w1) !! effective_keyspace VNone prepared_world = Some r
    /\ Driver.statements (driver w1) =
         Driver.statements (driver prepared_world)
         ++ [ {| Driver.statement_session := r; Driver.query_string := "SELECT 2" |} ]
    /\ (exists before,
          Driver.calls (driver w1) = before ++ [Driver.CallPrepare r "SELECT 2"])
    /\ (forall k0 n0, k0 <> effective_keyspace VNone prepared_world \/ n0 <> "q" ->
          prepared w1 k0 n0 = prepared prepared_world k0 n0).
Proof.
  apply (prepare_query_force prepared_world "q" "SELECT 2" VNone).
  - vm_compute. eauto.
  - vm_compute. reflexivity.
  - vm_compute. reflexivity.
Defined.

Lemma prepare_query_without_keyspace_witness :
  exists w1,
    prepare_query "q" "SELECT 1" VNone false scenario_world
      = (Raise (AttributeError "'NoneType' object has no attribute 'prepare'"), w1)
    /\ is_Some (cluster (self w1))
    /\ __session (self w1) = __session (self scenario_world)
    /\ driver w1 = driver (snd (connect VNone VNone scenario_world))
    /\ (forall k0 n0, prepared w1 k0 n0 = prepared scenario_world k0 n0).
Proof.
  apply (prepare_query_without_keyspace scenario_world "q" "SELECT 1" VNone false).
  - vm_compute. reflexivity.
  - vm_compute. reflexivity.
  - right. vm_compute. reflexivity.
Defined.

Lemma connect_unbound_witness :
  exists w',
    connect (VStr "ks") VNone unbound_world
      = (Raise (AttributeError "'NoneType' object has no attribute 'logger'"), w')
    /\ is_Some (cluster (self w'))
    /\ __session (self w') = __session (self unbound_world)
    /\ Driver.sessions (driver w') = Driver.sessions (driver unbound_world)
    /\ (cluster (self unbound_world) = None ->
        exists more,
          Driver.calls (driver w') =
            Driver.calls (driver unbound_world)
            ++ Driver.CallCluster (nodes (self unbound_world))
                 (port (self unbound_world)) :: more).
Proof.
  apply (connect_unbound unbound_world (VStr "ks") VNone); vm_compute; reflexivity.
Defined.

Lemma configured_level_not_applied_witness :
  default_consistency_level (self (snd (init_app (Flask.new level_config) unbound_world)))
    = config_value "CASSANDRA_CONSISTENCY_LEVEL" VNone (Flask.new level_config)
  /\ exists r o w',
       get_session VNone (snd (init_app (Flask.new level_config) unbound_world))
         = (Return (Some r), w')
       /\ Driver.sessions (driver w') !! r = Some o
       /\ Driver.session_keyspace o
          = effective_keyspace VNone
              (snd (init_app (Flask.new level_config) unbound_world))
       /\ Driver.default_consistency_level o = None.
Proof.
  apply (configured_level_not_applied (Flask.new level_config) unbound_world VNone);
    vm_compute; reflexivity.
Defined.

Lemma connection_stable_witness :
  connection (snd (connection context_world))
    = (Return (Some 0), snd (connection context_world))
  /\ stack_top (snd (connection context_world))
     = Some {| Flask.cassandra_cluster := Some (Some 0) |}.
Proof.
  apply (connection_stable context_world (Some 0) (snd (connection context_world))).
  - vm_compute. discriminate.
  - vm_compute. reflexivity.
Defined.

Lemma teardown_keeps_handles_witness :
  exists w',
    teardown None served_world = (Return tt, w')
    /\ self w' = self served_world
    /\ stack_top w' = stack_top served_world
    /\ Driver.sessions (driver w') = Driver.sessions (driver served_world)
    /\ Driver.calls (driver w')
       = Driver.calls (driver served_world) ++ [Driver.CallShutdown 0]
    /\ (exists o', Driver.clusters (driver w') !! 0 = Some o'
                   /\ Driver.is_shutdown o' = true
                   /\ Driver.contact_points o'
                      = Driver.contact_points
                          {| Driver.contact_points := VList ["cassandra.example.com"];
                             Driver.port := VInt 9042;
                             Driver.auth_provider := None;
                             Driver.is_shutdown := false |})
    /\ connection w' = (Return (Some 0), w')
    /\ (forall ks level r c0,
          truthy (effective_keyspace ks served_world) = true ->
          hashable (effective_keyspace ks served_world) = true ->
          __session (self served_world) !! effective_keyspace ks served_world = Some r ->
          cluster (self served_world) = Some c0 ->
          connect ks level w' = (Return (Some r), w')).
Proof.
  apply (teardown_keeps_handles served_world None 0
           {| Driver.contact_points := VList ["cassandra.example.com"];
              Driver.port := VInt 9042;
              Driver.auth_provider := None;
              Driver.is_shutdown := false |});
    vm_compute; reflexivity.
Defined.

Lemma teardown_without_handle_witness :
  teardown (Some (ValueError "boom")) keyspace_world = (Return tt, keyspace_world).
Proof.
  apply (teardown_without_handle keyspace_world (Some (ValueError "boom"))).
  left. vm_compute. reflexivity.
Defined.

Lemma init_app_keeps_context_handle_witness :
  let w' := snd (init_app (Flask.new scenario_config) served_world) in
  fst (init_app (Flask.new scenario_config) served_world) = Return tt
  /\ Driver.calls (driver w')
     = Driver.calls (driver served_world) ++ [Driver.CallShutdown 0]
  /\ cluster (self w') = None
  /\ connection w' = (Return (Some 0), w')
  /\ length (Driver.clusters (driver (snd (connection w'))))
     = length (Driver.clusters (driver served_world)).
Proof.
  apply (init_app_keeps_context_handle (Flask.new scenario_config) served_world 0).
  vm_compute. reflexivity.
Defined.

Lemma cluster_handle_kept_witness :
  cluster (self (exec (OpExecutePrepared "q" VNone (Some "SELECT 1") []) connected_world))
    = Some 0
  /\ length (Driver.clusters
               (driver (exec (OpExecutePrepared "q" VNone (Some "SELECT 1") [])
                          connected_world)))
     = length (Driver.clusters (driver connected_world)).
Proof.
  apply (cluster_handle_kept (OpExecutePrepared "q" VNone (Some "SELECT 1") [])
           connected_world 0).
  - reflexivity.
  - vm_compute. reflexivity.
Defined.

Lemma cached_sessions_kept_witness :
  __session (self (exec (OpTeardown None) connected_world)) !! VStr "ks" = Some 0.
Proof.
  apply (cached_sessions_kept (OpTeardown None) connected_world (VStr "ks") 0).
  - reflexivity.
  - vm_compute. reflexivity.
Defined.

Lemma settings_kept_witness :
  let s := self keyspace_world in
  let s' := self (exec (OpConnect (VStr "other") (VInt 1)) keyspace_world) in
  nodes s' = nodes s /\ port s' = port s /\ user s' = user s
  /\ password s' = password s /\ keyspace s' = keyspace s
  /\ default_consistency_level s' = default_consistency_level s.
Proof.
  apply (settings_kept (OpConnect (VStr "other") (VInt 1)) keyspace_world).
  reflexivity.
Defined.

(** The scenario's manager prints as [<CassandraCluster cql://u:ph11234>]. *)
Lemma repr_after_init_app_witness :
  exists s,
    __repr__ (String.concat ", ")
      (snd (init_app (Flask.new scenario_config) unbound_world))
    = (Return s, snd (init_app (Flask.new scenario_config) unbound_world)).
Proof.
  apply (repr_after_init_app (String.concat ", ") (Flask.new scenario_config)
           unbound_world);
    vm_compute; reflexivity.
Defined.

Lemma repr_shows_password_witness :
  occurs_in (String.append ":" "p") "<CassandraCluster cql://u:ph11234>".
Proof.
  apply (repr_shows_password (String.concat ", ") scenario_world "p"
           "<CassandraCluster cql://u:ph11234>").
  - vm_compute. reflexivity.
  - discriminate.
  - vm_compute. reflexivity.
Defined.

Lemma prepared_world_reachable : reachable prepared_world.
Proof.
  unfold prepared_world, keyspace_world.
  apply reachable_exec. apply reachable_init.
Defined.

Lemma reachable_statements_witness :
  exists st r o,
    Driver.statements (driver prepared_world) !! 0 = Some st
    /\ Driver.statement_session st = r
    /\ __session (self prepared_world) !! VStr "ks" = Some r
    /\ Driver.sessions (driver prepared_world) !! r = Some o
    /\ Driver.session_keyspace o = VStr "ks".
Proof.
  apply (reachable_statements prepared_world (VStr "ks") "q" 0).
  - exact prepared_world_reachable.
  - vm_compute. reflexivity.
Defined.

Lemma connect_without_keyspace_witness :
  let w := run_ops [OpPrepareQuery "q" "SELECT 1" VNone false; OpTeardown None]
             (snd (init_app (Flask.new scenario_config) unbound_world)) in
  exists w', connect VNone VNone w = (Return None, w')
    /\ (exists c, cluster (self w') = Some c
                  /\ is_Some (Driver.clusters (driver w') !! c))
    /\ __session (self w') = __session (self w)
    /\ Driver.sessions (driver w') = Driver.sessions (driver w)
    /\ match cluster (self w) with
       | Some _ => w' = w
       | None =>
           let c := length (Driver.clusters (driver w)) in
           let both := truthy (user (self w)) && truthy (password (self w)) in
           self w' = set_cluster (Some c) (self w)
           /\ Driver.clusters (driver w') =
                Driver.clusters (driver w)
                ++ [ {| Driver.contact_points := nodes (self w);
                        Driver.port := port (self w);
                        Driver.auth_provider :=
                          if both
                          then Some {| Driver.username := user (self w);
                                       Driver.password := password (self w) |}
                          else None;
                        Driver.is_shutdown := false |} ]
           /\ Driver.calls (driver w') =
                Driver.calls (driver w)
                ++ Driver.CallCluster (nodes (self w)) (port (self w))
                   :: (if both
                       then [Driver.CallPlainTextAuthProvider
                               (user (self w)) (password (self w))]
                       else [])
       end.
Proof.
  apply (connect_without_keyspace (Flask.new scenario_config) unbound_world
           [OpPrepareQuery "q" "SELECT 1" VNone false; OpTeardown None] VNone).
  - vm_compute. reflexivity.
  - repeat constructor.
Defined.
